(** * backman: configuration overlay, REST handlers, UI guard and redis restore

    A shallow embedding of the Go sources

      - [config/config.go]          (layered configuration, [new])
      - [router/api/backup.go]      (REST handlers [CreateBackup], [DeleteBackup])
      - [router/ui/handler.go]      (basic-auth validator, [ErrorHandler])
      - [service/redis/restore.go]  ([Restore])

    Go strings are byte strings and are modelled as [string]; [int] and
    [time.Duration] are [Z]; Go maps are finite maps that may be [nil]. *)

From Stdlib Require Import ZArith Ascii String List Bool Lia.
From stdpp Require Import gmap strings list fin_maps.

Local Open Scope string_scope.
Local Open Scope Z_scope.

(** ** Go runtime and standard-library functions used by the sources *)

Module Go.

(** What a function that may call [log.Fatalln] or hit a run-time panic
    produces. *)
Inductive outcome (A : Type) : Type :=
| Ok (a : A)
| Fatal (msg : string)
| Panic (msg : string).
Arguments Ok {A} a.
Arguments Fatal {A} msg.
Arguments Panic {A} msg.

(** A Go map value: [None] is the [nil] map.  Reading a [nil] map yields
    the zero value, ranging over it runs no iteration, assigning to it
    panics. *)
Definition map (V : Type) : Type := option (gmap string V).

Definition map_index {V} (zero : V) (m : map V) (k : string) : V :=
  match m with
  | None => zero
  | Some g => default zero (g !! k)
  end.

Definition len (s : string) : Z := Z.of_nat (String.length s).

Definition bytes (s : string) : list ascii := list_ascii_of_string s.
Definition of_bytes (l : list ascii) : string := string_of_list_ascii l.

Definition byte_val (c : ascii) : Z := Z.of_N (N_of_ascii c).

(** The values of a [byte]. *)
Definition is_byte (v : Z) : Prop := 0 <= v < 256.

(** *** path/filepath.Base (Unix) *)

Definition is_sep (c : ascii) : bool := Ascii.eqb c "/"%char.

Fixpoint drop_seps (l : list ascii) : list ascii :=
  match l with
  | c :: l' => if is_sep c then drop_seps l' else l
  | [] => []
  end.

Fixpoint take_elem (l : list ascii) : list ascii :=
  match l with
  | c :: l' => if is_sep c then [] else c :: take_elem l'
  | [] => []
  end.

(** The loops of [Base] run from the end of the path; here they run from
    the front of the reversed path. *)
Definition Base (path : string) : string :=
  match bytes path with
  | [] => "."
  | p =>
      match take_elem (drop_seps (rev p)) with
      | [] => "/"
      | e => of_bytes (rev e)
      end
  end.

(** *** net/url.QueryUnescape *)

Definition ishex (c : ascii) : bool :=
  let n := byte_val c in
  ((48 <=? n) && (n <=? 57)) || ((97 <=? n) && (n <=? 102))
  || ((65 <=? n) && (n <=? 70)).

Definition unhex (c : ascii) : Z :=
  let n := byte_val c in
  if (48 <=? n) && (n <=? 57) then n - 48
  else if (97 <=? n) && (n <=? 102) then n - 97 + 10
  else if (65 <=? n) && (n <=? 70) then n - 65 + 10
  else 0.

Definition byte_of (n : Z) : ascii := ascii_of_N (Z.to_N n).

(** [inr e] is [url.EscapeError(e)]: the malformed escape, at most three
    bytes long. *)
Fixpoint unescape (s : list ascii) : list ascii + list ascii :=
  match s with
  | [] => inl []
  | c :: rest =>
      if Ascii.eqb c "%"%char then
        match rest with
        | a :: b :: rest' =>
            if ishex a && ishex b then
              match unescape rest' with
              | inl t => inl (byte_of (Z.lor (Z.shiftl (unhex a) 4) (unhex b)) :: t)
              | inr e => inr e
              end
            else inr [c; a; b]
        | _ => inr s
        end
      else
        match unescape rest with
        | inl t => inl ((if Ascii.eqb c "+"%char then " "%char else c) :: t)
        | inr e => inr e
        end
  end.

Definition QueryUnescape (s : string) : string + string :=
  match unescape (bytes s) with
  | inl t => inl (of_bytes t)
  | inr e => inr (of_bytes e)
  end.

(** *** crypto/subtle *)

(** [int((uint32(x^y) - 1) >> 31)] *)
Definition ConstantTimeByteEq (x y : Z) : Z :=
  Z.shiftr ((Z.lxor x y - 1) mod 2 ^ 32) 31.

(** The loop [v |= x[i] ^ y[i]] over two slices of equal length; the
    second component counts the iterations executed. *)
Fixpoint ctc_loop (x y : list ascii) (v : Z) (n : nat) : Z * nat :=
  match x, y with
  | a :: x', b :: y' =>
      ctc_loop x' y' (Z.lor v (Z.lxor (byte_val a) (byte_val b))) (S n)
  | _, _ => (v, n)
  end.

(** Result and number of loop iterations of [ConstantTimeCompare]. *)
Definition ConstantTimeCompare_run (x y : list ascii) : Z * nat :=
  if negb (Nat.eqb (length x) (length y)) then (0, O)
  else
    let '(v, n) := ctc_loop x y 0 O in
    (ConstantTimeByteEq v 0, n).

Definition ConstantTimeCompare (x y : list ascii) : Z :=
  fst (ConstantTimeCompare_run x y).

(** *** strconv.Atoi, with the error dropped as in [n, _ = Atoi(s)] *)

Definition is_digit (c : ascii) : bool :=
  (48 <=? byte_val c) && (byte_val c <=? 57).

Fixpoint digits_val (l : list ascii) (acc : Z) : option Z :=
  match l with
  | [] => Some acc
  | c :: l' =>
      if is_digit c then digits_val l' (acc * 10 + (byte_val c - 48))
      else None
  end.

Definition clamp_int64 (n : Z) : Z :=
  if n <? - 2 ^ 63 then - 2 ^ 63
  else if 2 ^ 63 - 1 <? n then 2 ^ 63 - 1
  else n.

Definition Atoi_value (s : string) : Z :=
  let parse (neg : bool) (ds : list ascii) :=
    match ds with
    | [] => 0
    | _ =>
        match digits_val ds 0 with
        | Some n => clamp_int64 (if neg then - n else n)
        | None => 0
        end
    end in
  match bytes s with
  | [] => 0
  | c :: ds =>
      if Ascii.eqb c "-"%char then parse true ds
      else if Ascii.eqb c "+"%char then parse false ds
      else parse false (c :: ds)
  end.

(** *** strings.Split(s, ","), for a non-empty [s] *)

Fixpoint split_comma (l : list ascii) (cur : list ascii) : list string :=
  match l with
  | [] => [of_bytes (rev cur)]
  | c :: l' =>
      if Ascii.eqb c ","%char then of_bytes (rev cur) :: split_comma l' []
      else split_comma l' (c :: cur)
  end.

Definition Split_comma (s : string) : list string := split_comma (bytes s) [].

End Go.


(** ** config/config.go *)

Module Config.

Import Go.

(** [config.Service] is declared outside the files modelled here; the
    records below list the fields that [new], the REST handlers and the UI
    handler read or write.  [Timeout] is a duration in nanoseconds. *)
Record ServiceRetention := {
  Days : Z;
  Files : Z
}.

Record ServiceBinding := {
  Binding_Type : string;
  Binding_Provider : string;
  Binding_Host : string;
  Binding_Port : Z;
  Binding_URI : string;
  Binding_Username : string;
  Binding_Password : string;
  Binding_Database : string
}.

Record Service := {
  Name : string;
  Schedule : string;
  Timeout : Z;
  Retention : ServiceRetention;
  DirectS3 : bool;
  DisableColumnStatistics : bool;
  LogStdErr : bool;
  ForceImport : bool;
  LocalBackupPath : string;
  IgnoreTables : list string;
  BackupOptions : list string;
  RestoreOptions : list string;
  Binding : ServiceBinding
}.

Record S3Config := {
  S3_DisableSSL : bool;
  S3_SkipSSLVerification : bool;
  S3_ServiceType : string;
  S3_ServiceLabel : string;
  S3_ServiceName : string;
  S3_BucketName : string;
  S3_EncryptionKey : string;
  S3_Host : string;
  S3_AccessKey : string;
  S3_SecretKey : string
}.

Record TeamsNotificationConfig := {
  Webhook : string;
  Events : list string
}.

Record NotificationConfig := {
  Teams : TeamsNotificationConfig
}.

Record Config := {
  Port : Z;
  LogLevel : string;
  LoggingTimestamp : bool;
  Username : string;
  Password : string;
  DisableWeb : bool;
  DisableMetrics : bool;
  DisableRestore : bool;
  UnprotectedMetrics : bool;
  Notifications : NotificationConfig;
  S3 : S3Config;
  Services : Go.map Service;
  Foreground : bool
}.

(** Zero values. *)
Definition zeroBinding : ServiceBinding :=
  {| Binding_Type := ""; Binding_Provider := ""; Binding_Host := "";
     Binding_Port := 0; Binding_URI := ""; Binding_Username := "";
     Binding_Password := ""; Binding_Database := "" |}.

Definition zeroService : Service :=
  {| Name := ""; Schedule := ""; Timeout := 0;
     Retention := {| Days := 0; Files := 0 |};
     DirectS3 := false; DisableColumnStatistics := false;
     LogStdErr := false; ForceImport := false; LocalBackupPath := "";
     IgnoreTables := []; BackupOptions := []; RestoreOptions := [];
     Binding := zeroBinding |}.

Definition zeroS3 : S3Config :=
  {| S3_DisableSSL := false; S3_SkipSSLVerification := false;
     S3_ServiceType := ""; S3_ServiceLabel := ""; S3_ServiceName := "";
     S3_BucketName := ""; S3_EncryptionKey := ""; S3_Host := "";
     S3_AccessKey := ""; S3_SecretKey := "" |}.

(** [Config{}]: every field zero, [Services] the [nil] map. *)
Definition zeroConfig : Config :=
  {| Port := 0; LogLevel := ""; LoggingTimestamp := false;
     Username := ""; Password := "";
     DisableWeb := false; DisableMetrics := false; DisableRestore := false;
     UnprotectedMetrics := false;
     Notifications := {| Teams := {| Webhook := ""; Events := [] |} |};
     S3 := zeroS3; Services := None; Foreground := false |}.

(** [Config{Services: make(map[string]Service)}], the value [new] starts
    from. *)
Definition initialConfig : Config :=
  {| Port := 0; LogLevel := ""; LoggingTimestamp := false;
     Username := ""; Password := "";
     DisableWeb := false; DisableMetrics := false; DisableRestore := false;
     UnprotectedMetrics := false;
     Notifications := {| Teams := {| Webhook := ""; Events := [] |} |};
     S3 := zeroS3; Services := Some ∅; Foreground := false |}.

(** The guards of the merge. *)
Definition nonempty (s : string) : bool := 0 <? len s.
Definition nonempty_list {A} (l : list A) : bool := 0 <? Z.of_nat (length l).

(** [d.Seconds() > 1].  [Seconds] returns the float64
    [float64(d / 1e9) + float64(d % 1e9) / 1e9]; that sum exceeds 1
    exactly when the integer count of nanoseconds exceeds 10^9. *)
Definition longer_than_a_second (d : Z) : bool := 10 ^ 9 <? d.

(** Body of the loop over [envConfig.Services] (lines 173-235): the entry
    read from [config.Services] overlaid with the entry of the
    environment. *)
Definition mergeService (mergedServiceConfig serviceConfig : Service) : Service :=
  {| Name := Name mergedServiceConfig;
     Schedule :=
       if nonempty (Schedule serviceConfig) then Schedule serviceConfig
       else Schedule mergedServiceConfig;
     Timeout :=
       if longer_than_a_second (Timeout serviceConfig) then Timeout serviceConfig
       else Timeout mergedServiceConfig;
     Retention :=
       {| Days :=
            if 0 <? Days (Retention serviceConfig) then Days (Retention serviceConfig)
            else Days (Retention mergedServiceConfig);
          Files :=
            if 0 <? Files (Retention serviceConfig) then Files (Retention serviceConfig)
            else Files (Retention mergedServiceConfig) |};
     DirectS3 :=
       if DirectS3 serviceConfig then DirectS3 serviceConfig
       else DirectS3 mergedServiceConfig;
     DisableColumnStatistics :=
       if DisableColumnStatistics serviceConfig then DisableColumnStatistics serviceConfig
       else DisableColumnStatistics mergedServiceConfig;
     LogStdErr :=
       if LogStdErr serviceConfig then LogStdErr serviceConfig
       else LogStdErr mergedServiceConfig;
     ForceImport :=
       if ForceImport serviceConfig then ForceImport serviceConfig
       else ForceImport mergedServiceConfig;
     LocalBackupPath :=
       if nonempty (LocalBackupPath serviceConfig) then LocalBackupPath serviceConfig
       else LocalBackupPath mergedServiceConfig;
     IgnoreTables :=
       if nonempty_list (IgnoreTables serviceConfig) then IgnoreTables serviceConfig
       else IgnoreTables mergedServiceConfig;
     BackupOptions :=
       if nonempty_list (BackupOptions serviceConfig) then BackupOptions serviceConfig
       else BackupOptions mergedServiceConfig;
     RestoreOptions :=
       if nonempty_list (RestoreOptions serviceConfig) then RestoreOptions serviceConfig
       else RestoreOptions mergedServiceConfig;
     Binding :=
       let b := Binding serviceConfig in
       let m := Binding mergedServiceConfig in
       {| Binding_Type :=
            if nonempty (Binding_Type b) then Binding_Type b else Binding_Type m;
          Binding_Provider :=
            if nonempty (Binding_Provider b) then Binding_Provider b
            else Binding_Provider m;
          Binding_Host :=
            if nonempty (Binding_Host b) then Binding_Host b else Binding_Host m;
          Binding_Port :=
            if 0 <? Binding_Port b then Binding_Port b else Binding_Port m;
          Binding_URI :=
            if nonempty (Binding_URI b) then Binding_URI b else Binding_URI m;
          Binding_Username :=
            if nonempty (Binding_Username b) then Binding_Username b
            else Binding_Username m;
          Binding_Password :=
            if nonempty (Binding_Password b) then Binding_Password b
            else Binding_Password m;
          Binding_Database :=
            if nonempty (Binding_Database b) then Binding_Database b
            else Binding_Database m |} |}.

(** One iteration of the loop: read [config.Services[serviceName]], merge,
    write back. *)
Definition mergeStep (serviceName : string) (serviceConfig : Service)
    (services : gmap string Service) : gmap string Service :=
  <[serviceName := mergeService (default zeroService (services !! serviceName)) serviceConfig]>
    services.

(** The loop of lines 172-238.  With a [nil] or empty [envConfig.Services]
    no iteration runs; otherwise the first assignment panics when
    [config.Services] is [nil]. *)
Definition mergeServices (services envServices : Go.map Service)
    : outcome (Go.map Service) :=
  match envServices with
  | None => Ok services
  | Some e =>
      if bool_decide (e = ∅) then Ok services
      else
        match services with
        | None => Panic "assignment to entry in nil map"
        | Some s => Ok (Some (map_fold mergeStep s e))
        end
  end.

(** Lines 103-169: the top-level, notification and S3 settings. *)
Definition mergeSettings (config envConfig : Config) : Config :=
  {| Port := if 0 <? Port envConfig then Port envConfig else Port config;
     LogLevel :=
       if nonempty (LogLevel envConfig) then LogLevel envConfig
       else LogLevel config;
     LoggingTimestamp :=
       if LoggingTimestamp envConfig then LoggingTimestamp envConfig
       else LoggingTimestamp config;
     Username :=
       if nonempty (Username envConfig) then Username envConfig
       else Username config;
     Password :=
       if nonempty (Password envConfig) then Password envConfig
       else Password config;
     DisableWeb :=
       if DisableWeb envConfig then DisableWeb envConfig else DisableWeb config;
     DisableMetrics :=
       if DisableMetrics envConfig then DisableMetrics envConfig
       else DisableMetrics config;
     DisableRestore :=
       if DisableRestore envConfig then DisableRestore envConfig
       else DisableRestore config;
     UnprotectedMetrics :=
       if UnprotectedMetrics envConfig then UnprotectedMetrics envConfig
       else UnprotectedMetrics config;
     Notifications :=
       let t := Teams (Notifications envConfig) in
       let c := Teams (Notifications config) in
       {| Teams :=
            {| Webhook := if nonempty (Webhook t) then Webhook t else Webhook c;
               Events := if nonempty_list (Events t) then Events t else Events c |} |};
     S3 :=
       let e := S3 envConfig in
       let c := S3 config in
       {| S3_DisableSSL :=
            if S3_DisableSSL e then S3_DisableSSL e else S3_DisableSSL c;
          S3_SkipSSLVerification :=
            if S3_SkipSSLVerification e then S3_SkipSSLVerification e
            else S3_SkipSSLVerification c;
          S3_ServiceType :=
            if nonempty (S3_ServiceType e) then S3_ServiceType e else S3_ServiceType c;
          S3_ServiceLabel :=
            if nonempty (S3_ServiceLabel e) then S3_ServiceLabel e
            else S3_ServiceLabel c;
          S3_ServiceName :=
            if nonempty (S3_ServiceName e) then S3_ServiceName e else S3_ServiceName c;
          S3_BucketName :=
            if nonempty (S3_BucketName e) then S3_BucketName e else S3_BucketName c;
          S3_EncryptionKey :=
            if nonempty (S3_EncryptionKey e) then S3_EncryptionKey e
            else S3_EncryptionKey c;
          S3_Host := if nonempty (S3_Host e) then S3_Host e else S3_Host c;
          S3_AccessKey :=
            if nonempty (S3_AccessKey e) then S3_AccessKey e else S3_AccessKey c;
          S3_SecretKey :=
            if nonempty (S3_SecretKey e) then S3_SecretKey e else S3_SecretKey c |};
     Services := Services config;
     Foreground := Foreground config |}.

Definition withServices (c : Config) (s : Go.map Service) : Config :=
  {| Port := Port c; LogLevel := LogLevel c;
     LoggingTimestamp := LoggingTimestamp c;
     Username := Username c; Password := Password c;
     DisableWeb := DisableWeb c; DisableMetrics := DisableMetrics c;
     DisableRestore := DisableRestore c;
     UnprotectedMetrics := UnprotectedMetrics c;
     Notifications := Notifications c; S3 := S3 c;
     Services := s; Foreground := Foreground c |}.

(** Lines 103-238: the whole overlay of the environment-provided
    configuration over the configuration read so far. *)
Definition overlay (config envConfig : Config) : outcome Config :=
  let merged := mergeSettings config envConfig in
  match mergeServices (Services merged) (Services envConfig) with
  | Ok s => Ok (withServices merged s)
  | Fatal m => Fatal m
  | Panic m => Panic m
  end.

(** What the operating system hands to [new].  The JSON decoders are Go's;
    the model starts from their results. *)
Inductive FileLoad :=
| NoFile                        (* os.Stat(configFile) fails *)
| ReadFailed (err : string)     (* ioutil.ReadFile fails *)
| FileParseFailed (err : string) (* json.Unmarshal(data, &config) fails *)
| FileLoaded (c : Config).      (* [config] after the Unmarshal *)

Inductive EnvLoad :=
| EnvEmpty                      (* len(os.Getenv(BackmanConfig)) == 0 *)
| EnvParseFailed (err : string) (* json.Unmarshal into Config{} fails *)
| EnvLoaded (c : Config).       (* [envConfig] after the Unmarshal *)

(** One field per environment variable read through [os.Getenv]; the
    field carries the name of the Go constant that holds the variable's
    name. *)
Record Inputs := {
  configFile : FileLoad;
  BackmanConfig : EnvLoad;
  BackmanPort : string;
  BackmanUsername : string;
  BackmanPassword : string;
  BackmanEncryptionKey : string;
  BackmanTeamsWebhook : string;
  BackmanTeamsEvents : string
}.

Definition is_empty (s : string) : bool := String.eqb s "".

(** Lines 80-91. *)
Definition loadFile (f : FileLoad) : outcome Config :=
  match f with
  | NoFile => Ok initialConfig
  | ReadFailed err => Fatal err
  | FileParseFailed err => Fatal err
  | FileLoaded c => Ok c
  end.

(** Lines 93-239. *)
Definition loadEnv (config : Config) (e : EnvLoad) : outcome Config :=
  match e with
  | EnvEmpty => Ok config
  | EnvParseFailed err => Fatal err
  | EnvLoaded envConfig => overlay config envConfig
  end.

(** Lines 241-278: defaults and the dedicated environment variables. *)
Definition finish (config : Config) (i : Inputs) : Config :=
  {| Port := if Port config =? 0 then Atoi_value (BackmanPort i) else Port config;
     LogLevel := if len (LogLevel config) =? 0 then "info" else LogLevel config;
     LoggingTimestamp := LoggingTimestamp config;
     Username :=
       if negb (is_empty (BackmanUsername i)) then BackmanUsername i
       else Username config;
     Password :=
       if negb (is_empty (BackmanPassword i)) then BackmanPassword i
       else Password config;
     DisableWeb := DisableWeb config;
     DisableMetrics := DisableMetrics config;
     DisableRestore := DisableRestore config;
     UnprotectedMetrics := UnprotectedMetrics config;
     Notifications :=
       let t := Teams (Notifications config) in
       {| Teams :=
            {| Webhook :=
                 if negb (is_empty (BackmanTeamsWebhook i)) then BackmanTeamsWebhook i
                 else Webhook t;
               Events :=
                 if negb (is_empty (BackmanTeamsEvents i))
                 then Split_comma (BackmanTeamsEvents i)
                 else Events t |} |};
     S3 :=
       let c := S3 config in
       {| S3_DisableSSL := S3_DisableSSL c;
          S3_SkipSSLVerification := S3_SkipSSLVerification c;
          S3_ServiceType := S3_ServiceType c;
          S3_ServiceLabel := S3_ServiceLabel c;
          S3_ServiceName := S3_ServiceName c;
          S3_BucketName := S3_BucketName c;
          S3_EncryptionKey :=
            if negb (is_empty (BackmanEncryptionKey i)) then BackmanEncryptionKey i
            else S3_EncryptionKey c;
          S3_Host := S3_Host c;
          S3_AccessKey := S3_AccessKey c;
          S3_SecretKey := S3_SecretKey c |};
     Services := Services config;
     Foreground := Foreground config |}.

Definition new (i : Inputs) : outcome Config :=
  match loadFile (configFile i) with
  | Ok config =>
      match loadEnv config (BackmanConfig i) with
      | Ok config' => Ok (finish config' i)
      | Fatal m => Fatal m
      | Panic m => Panic m
      end
  | Fatal m => Fatal m
  | Panic m => Panic m
  end.

(** *** Statements about the overlay

    [e] is an entry (or the configuration) of the environment, [f] the one
    read from the file, [m] the merged one. *)

(** Every field of [e] that passes the guard of the merge is the field of
    [m]. *)
Definition service_takes_env (e m : Service) : Prop :=
  (Schedule e <> "" -> Schedule m = Schedule e)
  /\ (10 ^ 9 < Timeout e -> Timeout m = Timeout e)
  /\ (0 < Days (Retention e) -> Days (Retention m) = Days (Retention e))
  /\ (0 < Files (Retention e) -> Files (Retention m) = Files (Retention e))
  /\ (DirectS3 e = true -> DirectS3 m = DirectS3 e)
  /\ (DisableColumnStatistics e = true ->
      DisableColumnStatistics m = DisableColumnStatistics e)
  /\ (LogStdErr e = true -> LogStdErr m = LogStdErr e)
  /\ (ForceImport e = true -> ForceImport m = ForceImport e)
  /\ (LocalBackupPath e <> "" -> LocalBackupPath m = LocalBackupPath e)
  /\ (IgnoreTables e <> [] -> IgnoreTables m = IgnoreTables e)
  /\ (BackupOptions e <> [] -> BackupOptions m = BackupOptions e)
  /\ (RestoreOptions e <> [] -> RestoreOptions m = RestoreOptions e)
  /\ (Binding_Type (Binding e) <> "" ->
      Binding_Type (Binding m) = Binding_Type (Binding e))
  /\ (Binding_Provider (Binding e) <> "" ->
      Binding_Provider (Binding m) = Binding_Provider (Binding e))
  /\ (Binding_Host (Binding e) <> "" ->
      Binding_Host (Binding m) = Binding_Host (Binding e))
  /\ (0 < Binding_Port (Binding e) ->
      Binding_Port (Binding m) = Binding_Port (Binding e))
  /\ (Binding_URI (Binding e) <> "" ->
      Binding_URI (Binding m) = Binding_URI (Binding e))
  /\ (Binding_Username (Binding e) <> "" ->
      Binding_Username (Binding m) = Binding_Username (Binding e))
  /\ (Binding_Password (Binding e) <> "" ->
      Binding_Password (Binding m) = Binding_Password (Binding e))
  /\ (Binding_Database (Binding e) <> "" ->
      Binding_Database (Binding m) = Binding_Database (Binding e)).

(** The settings that only the overlay writes. *)
Definition settings_take_env (e m : Config) : Prop :=
  (0 < Port e -> Port m = Port e)
  /\ (LogLevel e <> "" -> LogLevel m = LogLevel e)
  /\ (LoggingTimestamp e = true -> LoggingTimestamp m = LoggingTimestamp e)
  /\ (DisableWeb e = true -> DisableWeb m = DisableWeb e)
  /\ (DisableMetrics e = true -> DisableMetrics m = DisableMetrics e)
  /\ (DisableRestore e = true -> DisableRestore m = DisableRestore e)
  /\ (UnprotectedMetrics e = true -> UnprotectedMetrics m = UnprotectedMetrics e)
  /\ (S3_DisableSSL (S3 e) = true -> S3_DisableSSL (S3 m) = S3_DisableSSL (S3 e))
  /\ (S3_SkipSSLVerification (S3 e) = true ->
      S3_SkipSSLVerification (S3 m) = S3_SkipSSLVerification (S3 e))
  /\ (S3_ServiceType (S3 e) <> "" -> S3_ServiceType (S3 m) = S3_ServiceType (S3 e))
  /\ (S3_ServiceLabel (S3 e) <> "" -> S3_ServiceLabel (S3 m) = S3_ServiceLabel (S3 e))
  /\ (S3_ServiceName (S3 e) <> "" -> S3_ServiceName (S3 m) = S3_ServiceName (S3 e))
  /\ (S3_BucketName (S3 e) <> "" -> S3_BucketName (S3 m) = S3_BucketName (S3 e))
  /\ (S3_Host (S3 e) <> "" -> S3_Host (S3 m) = S3_Host (S3 e))
  /\ (S3_AccessKey (S3 e) <> "" -> S3_AccessKey (S3 m) = S3_AccessKey (S3 e))
  /\ (S3_SecretKey (S3 e) <> "" -> S3_SecretKey (S3 m) = S3_SecretKey (S3 e)).

(** The settings that a dedicated environment variable may replace after
    the overlay: [v] is the value of that variable. *)
Definition or_variable {A} (v : string) (of_variable : A) (of_config : A) : A :=
  if is_empty v then of_config else of_variable.

Definition dedicated_take_env (i : Inputs) (e m : Config) : Prop :=
  (Username e <> "" ->
     Username m = or_variable (BackmanUsername i) (BackmanUsername i) (Username e))
  /\ (Password e <> "" ->
      Password m = or_variable (BackmanPassword i) (BackmanPassword i) (Password e))
  /\ (S3_EncryptionKey (S3 e) <> "" ->
      S3_EncryptionKey (S3 m)
      = or_variable (BackmanEncryptionKey i) (BackmanEncryptionKey i)
          (S3_EncryptionKey (S3 e)))
  /\ (Webhook (Teams (Notifications e)) <> "" ->
      Webhook (Teams (Notifications m))
      = or_variable (BackmanTeamsWebhook i) (BackmanTeamsWebhook i)
          (Webhook (Teams (Notifications e))))
  /\ (Events (Teams (Notifications e)) <> [] ->
      Events (Teams (Notifications m))
      = or_variable (BackmanTeamsEvents i) (Split_comma (BackmanTeamsEvents i))
          (Events (Teams (Notifications e)))).

(** A boolean option that is true in [f] is true in [m]. *)
Definition service_bools_stay (f m : Service) : Prop :=
  (DirectS3 f = true -> DirectS3 m = true)
  /\ (DisableColumnStatistics f = true -> DisableColumnStatistics m = true)
  /\ (LogStdErr f = true -> LogStdErr m = true)
  /\ (ForceImport f = true -> ForceImport m = true).

Definition settings_bools_stay (f m : Config) : Prop :=
  (LoggingTimestamp f = true -> LoggingTimestamp m = true)
  /\ (DisableWeb f = true -> DisableWeb m = true)
  /\ (DisableMetrics f = true -> DisableMetrics m = true)
  /\ (DisableRestore f = true -> DisableRestore m = true)
  /\ (UnprotectedMetrics f = true -> UnprotectedMetrics m = true)
  /\ (S3_DisableSSL (S3 f) = true -> S3_DisableSSL (S3 m) = true)
  /\ (S3_SkipSSLVerification (S3 f) = true -> S3_SkipSSLVerification (S3 m) = true)
  /\ Foreground m = Foreground f.

(** An empty string or list, or a number that is not positive, in [e]
    leaves the field of [f] in place. *)
Definition service_zero_keeps (f e m : Service) : Prop :=
  Name m = Name f
  /\ (Schedule e = "" -> Schedule m = Schedule f)
  /\ (Days (Retention e) <= 0 -> Days (Retention m) = Days (Retention f))
  /\ (Files (Retention e) <= 0 -> Files (Retention m) = Files (Retention f))
  /\ (LocalBackupPath e = "" -> LocalBackupPath m = LocalBackupPath f)
  /\ (IgnoreTables e = [] -> IgnoreTables m = IgnoreTables f)
  /\ (BackupOptions e = [] -> BackupOptions m = BackupOptions f)
  /\ (RestoreOptions e = [] -> RestoreOptions m = RestoreOptions f)
  /\ (Binding_Type (Binding e) = "" ->
      Binding_Type (Binding m) = Binding_Type (Binding f))
  /\ (Binding_Provider (Binding e) = "" ->
      Binding_Provider (Binding m) = Binding_Provider (Binding f))
  /\ (Binding_Host (Binding e) = "" ->
      Binding_Host (Binding m) = Binding_Host (Binding f))
  /\ (Binding_Port (Binding e) <= 0 ->
      Binding_Port (Binding m) = Binding_Port (Binding f))
  /\ (Binding_URI (Binding e) = "" ->
      Binding_URI (Binding m) = Binding_URI (Binding f))
  /\ (Binding_Username (Binding e) = "" ->
      Binding_Username (Binding m) = Binding_Username (Binding f))
  /\ (Binding_Password (Binding e) = "" ->
      Binding_Password (Binding m) = Binding_Password (Binding f))
  /\ (Binding_Database (Binding e) = "" ->
      Binding_Database (Binding m) = Binding_Database (Binding f)).

Definition settings_zero_keeps (f e m : Config) : Prop :=
  (Port e <= 0 -> Port m = Port f)
  /\ (LogLevel e = "" -> LogLevel m = LogLevel f)
  /\ (Username e = "" -> Username m = Username f)
  /\ (Password e = "" -> Password m = Password f)
  /\ (Webhook (Teams (Notifications e)) = "" ->
      Webhook (Teams (Notifications m)) = Webhook (Teams (Notifications f)))
  /\ (Events (Teams (Notifications e)) = [] ->
      Events (Teams (Notifications m)) = Events (Teams (Notifications f)))
  /\ (S3_ServiceType (S3 e) = "" -> S3_ServiceType (S3 m) = S3_ServiceType (S3 f))
  /\ (S3_ServiceLabel (S3 e) = "" -> S3_ServiceLabel (S3 m) = S3_ServiceLabel (S3 f))
  /\ (S3_ServiceName (S3 e) = "" -> S3_ServiceName (S3 m) = S3_ServiceName (S3 f))
  /\ (S3_BucketName (S3 e) = "" -> S3_BucketName (S3 m) = S3_BucketName (S3 f))
  /\ (S3_EncryptionKey (S3 e) = "" ->
      S3_EncryptionKey (S3 m) = S3_EncryptionKey (S3 f))
  /\ (S3_Host (S3 e) = "" -> S3_Host (S3 m) = S3_Host (S3 f))
  /\ (S3_AccessKey (S3 e) = "" -> S3_AccessKey (S3 m) = S3_AccessKey (S3 f))
  /\ (S3_SecretKey (S3 e) = "" -> S3_SecretKey (S3 m) = S3_SecretKey (S3 f)).

(** The entry of a service, read as Go reads a map. *)
Definition service_of (c : Config) (name : string) : Service :=
  map_index zeroService (Services c) name.

End Config.


(** ** The state tracker (package [state])

    Package [state] is not among the sources modelled here: its data and
    operations follow sections 3 and 4.1 of the specification. *)

Module State.

(** Modelled from the spec: the kind of an operation (section 3). *)
Inductive Kind := backup | restore.

(** Modelled from the spec: the phases of an operation (section 3). *)
Inductive Phase := idle | queued | running | succeeded | failed.

(** Modelled from the spec: the operation state of section 3, without its
    two timestamps. *)
Record OperationState := {
  kind : Kind;
  phase : Phase;
  filename : string;
  lastError : string
}.

(** Modelled from the spec: the identity of a service instance, its type
    and its name (section 3). *)
Definition ServiceKey : Type := string * string.

Abbreviation Tracker := (gmap (string * string) OperationState).

(** Modelled from the spec: the state of a key that was never reserved. *)
Definition idleState : OperationState :=
  {| kind := backup; phase := idle; filename := ""; lastError := "" |}.

(** Modelled from the spec: an operation is in flight while its phase is
    queued or running (section 3, invariants). *)
Definition in_flight (p : Phase) : bool :=
  match p with
  | queued | running => true
  | _ => false
  end.

(** Modelled from the spec: [Query] of section 4.1 returns the idle state
    for a key that was never reserved. *)
Definition Query (key : ServiceKey) (t : Tracker) : OperationState :=
  default idleState (t !! key).

(** Modelled from the spec: what [Reserve] returns, a handle or the busy
    error. *)
Inductive ReserveResult :=
| Reserved (handle : ServiceKey)
| BusyError.

(** Modelled from the spec: [Reserve] of section 4.1, an atomic
    check-and-set: [BusyError] when the entry is queued or running, otherwise
    the entry is created or overwritten with phase queued. *)
Definition Reserve (key : ServiceKey) (k : Kind) (t : Tracker)
    : ReserveResult * Tracker :=
  if in_flight (phase (Query key t)) then (BusyError, t)
  else (Reserved key,
        <[key := {| kind := k; phase := queued; filename := ""; lastError := "" |}]> t).

(** Modelled from the spec: [MarkRunning] of section 4.1.  A transition
    that the state machine (idle, queued, running, then succeeded or failed)
    does not allow is a programming error: [None]. *)
Definition MarkRunning (handle : ServiceKey) (t : Tracker) : option Tracker :=
  let s := Query handle t in
  match phase s with
  | queued =>
      Some (<[handle := {| kind := kind s; phase := running;
                           filename := ""; lastError := "" |}]> t)
  | _ => None
  end.

(** Modelled from the spec: [MarkSucceeded] of section 4.1, allowed from
    phase running. *)
Definition MarkSucceeded (handle : ServiceKey) (artifactName : string)
    (t : Tracker) : option Tracker :=
  let s := Query handle t in
  match phase s with
  | running =>
      Some (<[handle := {| kind := kind s; phase := succeeded;
                           filename := artifactName; lastError := "" |}]> t)
  | _ => None
  end.

(** Modelled from the spec: [MarkFailed] of section 4.1, allowed at any
    stage of an operation in flight (section 4.2, step 3). *)
Definition MarkFailed (handle : ServiceKey) (err : string)
    (t : Tracker) : option Tracker :=
  let s := Query handle t in
  if in_flight (phase s) then
    Some (<[handle := {| kind := kind s; phase := failed;
                         filename := ""; lastError := err |}]> t)
  else None.

End State.


(** ** Effects: the world the handlers and executors act on *)

Module Effects.

(** The [Message] of an [echo.HTTPError] has type [interface{}]. *)
Inductive HTTPMessage :=
| MessageString (s : string)
| MessageOther.

Inductive error :=
| EscapeError (s : string)      (* url.EscapeError *)
| errorString (msg : string)    (* fmt.Errorf with the message rendered *)
| HTTPError (code : Z) (message : HTTPMessage)  (* *echo.HTTPError *)
| NotFoundError (key : string)  (* object storage: no such key *)
| StorageError (msg : string).  (* object storage: backend failure *)

(** A line of the log.  [Errorf] keeps its format, the string arguments
    and the error argument apart: the error is not rendered. *)
Inductive LogLine :=
| Errorln (msg : string)
| Errorf (format : string) (args : list string) (err : error).

(** A goroutine started with [go]: the backup of a service, requested under
    the given name. *)
Inductive Task :=
| BackupTask (serviceInstance : Config.Service) (serviceName : string).

Record World := {
  tracker : State.Tracker;
  (* the phases that the code modelled here writes to the tracker itself,
     oldest first; what package [state] does when called is in [tracker] *)
  transitions : list (State.ServiceKey * State.Phase);
  (* object storage: artifact key to size, and whether the backend answers *)
  catalog : gmap string Z;
  s3_up : bool;
  log : list LogLine;
  tasks : list Task
}.

(** State monad over the world. *)
Definition M (A : Type) : Type := World -> A * World.

Definition ret {A} (a : A) : M A := fun w => (a, w).

Definition bind {A B} (m : M A) (k : A -> M B) : M B :=
  fun w => let '(a, w') := m w in k a w'.

Definition log_line (l : LogLine) : M unit :=
  fun w =>
    (tt, {| tracker := tracker w; transitions := transitions w;
            catalog := catalog w; s3_up := s3_up w;
            log := log w ++ [l]; tasks := tasks w |}).

Definition go (t : Task) : M unit :=
  fun w =>
    (tt, {| tracker := tracker w; transitions := transitions w;
            catalog := catalog w; s3_up := s3_up w;
            log := log w; tasks := tasks w ++ [t] |}).

(** A call into package [state]: it acts on the tracker and on nothing
    else of the world. *)
Definition on_tracker (f : State.Tracker -> State.Tracker) : M unit :=
  fun w =>
    (tt, {| tracker := f (tracker w); transitions := transitions w;
            catalog := catalog w; s3_up := s3_up w;
            log := log w; tasks := tasks w |}).

Definition set_catalog (c : gmap string Z) : M unit :=
  fun w =>
    (tt, {| tracker := tracker w; transitions := transitions w;
            catalog := c; s3_up := s3_up w;
            log := log w; tasks := tasks w |}).

End Effects.

Notation "x <- c1 ;; c2" := (Effects.bind c1 (fun x => c2))
  (at level 100, c1 at next level, right associativity).
Notation "c1 ;;; c2" := (Effects.bind c1 (fun _ => c2))
  (at level 100, right associativity).


(** ** service/redis/restore.go *)

Module Redis.

Import Effects.

(** The argument types of [Restore] are declared outside the files
    modelled here; [Restore] reads none of their fields. *)
Record Context := { ctx_done : bool; ctx_deadline : option Z }.
Record S3Client := { BucketName : string; Endpoint : string }.
Record CfenvService := { Credentials : list (string * string) }.

(** Modelled from the spec: [util.Service], of which the tracker uses the
    identity, the type (label) and the name of the instance (section 3). *)
Record Service := { Name : string; Label : string }.

(** Modelled from the spec: the key under which the tracker files a
    service. *)
Definition key (service : Service) : State.ServiceKey := (Label service, Name service).

Section Restore.

(** [state.RestoreQueue] and [state.RestoreFailure] are declared outside
    the files modelled here: package [state] keeps the tracker, and the two
    functions are taken as they come, as functions on the tracker. *)
Variable state_RestoreQueue : Service -> State.Tracker -> State.Tracker.
Variable state_RestoreFailure : Service -> string -> State.Tracker -> State.Tracker.

Definition Restore (ctx : Context) (s3 : S3Client) (service : Service)
    (binding : CfenvService) (objectPath : string) : M (option error) :=
  on_tracker (state_RestoreQueue service) ;;;
  log_line (Errorln "restoring redis is not supported, please contact your redis database administrator") ;;;
  let filename := Go.Base objectPath in
  on_tracker (state_RestoreFailure service filename) ;;;
  ret (Some (errorString "redis restore: unsupported")).

End Restore.

End Redis.


(** ** Package [service]: the orchestrator behind the handlers *)

Module Service.

Import Effects.

(** [service.Backup] and its files, as [getAPIBackup] reads them. *)
Record File := {
  Key : string;
  Filepath : string;
  Filename : string;
  Size : Z;
  LastModified : Z
}.

Record Backup := {
  Backup_Service : Config.Service;
  Backup_Files : list File
}.

(** Modelled from the spec: the storage key of an artifact, section 4.2:
    type, name and file name joined by slashes. *)
Definition artifactKey (serviceType serviceName filename : string) : string :=
  serviceType ++ "/" ++ serviceName ++ "/" ++ filename.

(** Modelled from the spec: [service.DeleteBackup] is not among the
    sources.  Sections 4.2 and 4.4: a direct catalog delete by the derived
    key, [StorageError] when the backend fails, [NotFoundError] when the key
    does not exist, independent of the state tracker. *)
Definition DeleteBackup (serviceType serviceName filename : string)
    : M (option error) :=
  fun w =>
    let k := artifactKey serviceType serviceName filename in
    if negb (s3_up w) then (Some (StorageError "object storage unavailable"), w)
    else
      match catalog w !! k with
      | None => (Some (NotFoundError k), w)
      | Some _ => (set_catalog (delete k (catalog w)) ;;; ret None) w
      end.

(** Modelled from the spec: what a caller of [service.CreateBackup] is
    told (section 4.2, steps 1, 2 and 4). *)
Inductive CreateResult := Accepted | Busy | Unsupported.

(** Modelled from the spec: [service.CreateBackup] is not among the
    sources.  Steps 1 and 2 of section 4.2: resolve the executor of the
    service type, then reserve the service key; a busy key is rejected, not
    queued behind the operation in flight. *)
Definition CreateBackup (registered : string -> bool) (key : State.ServiceKey)
    (t : State.Tracker) : CreateResult * State.Tracker :=
  if negb (registered (fst key)) then (Unsupported, t)
  else
    match State.Reserve key State.backup t with
    | (State.Reserved _, t') => (Accepted, t')
    | (State.BusyError, t') => (Busy, t')
    end.

(** Modelled from the spec: the atomic steps that callers and backup tasks
    take on the tracker.  Concurrent execution is an interleaving of such
    steps: the tracker serialises all mutations (sections 4.1 and 5). *)
Inductive Action :=
| Call (key : State.ServiceKey)          (* a caller enters CreateBackup *)
| Run (key : State.ServiceKey)           (* the task calls MarkRunning *)
| Succeed (key : State.ServiceKey) (artifact : string)
| Fail (key : State.ServiceKey) (err : string).

Definition finishes (key : State.ServiceKey) (a : Action) : bool :=
  match a with
  | Succeed k _ | Fail k _ => bool_decide (k = key)
  | _ => false
  end.

Definition calls (key : State.ServiceKey) (a : Action) : bool :=
  match a with
  | Call k => bool_decide (k = key)
  | _ => false
  end.

(** Modelled from the spec: a schedule run step by step; the result lists
    the outcome of every call, in order.  [None]: the schedule contains a
    transition the state machine forbids. *)
Fixpoint run (registered : string -> bool) (sched : list Action)
    (t : State.Tracker) : option (list (State.ServiceKey * CreateResult) * State.Tracker) :=
  match sched with
  | [] => Some ([], t)
  | Call k :: rest =>
      let '(r, t') := CreateBackup registered k t in
      match run registered rest t' with
      | Some (rs, t'') => Some ((k, r) :: rs, t'')
      | None => None
      end
  | Run k :: rest =>
      match State.MarkRunning k t with
      | Some t' => run registered rest t'
      | None => None
      end
  | Succeed k a :: rest =>
      match State.MarkSucceeded k a t with
      | Some t' => run registered rest t'
      | None => None
      end
  | Fail k e :: rest =>
      match State.MarkFailed k e t with
      | Some t' => run registered rest t'
      | None => None
      end
  end.

(** How many calls a schedule makes for a key, and whether it holds no
    terminal transition of that key. *)
Definition n_calls (key : State.ServiceKey) (sched : list Action) : nat :=
  length (List.filter (calls key) sched).

Definition no_finish (key : State.ServiceKey) (sched : list Action) : bool :=
  forallb (fun a => negb (finishes key a)) sched.

(** The outcomes of the calls made for one key. *)
Definition outcomes_for (key : State.ServiceKey)
    (rs : list (State.ServiceKey * CreateResult)) : list CreateResult :=
  snd <$> filter (fun kr => fst kr = key) rs.

End Service.


(** ** router/api/backup.go *)

Module Api.

Import Effects.

Definition StatusAccepted : Z := 202.
Definition StatusNoContent : Z := 204.
Definition StatusBadRequest : Z := 400.
Definition StatusNotFound : Z := 404.
Definition StatusInternalServerError : Z := 500.

(** The path parameters of a request. *)
Record Request := {
  service_type : string;
  service_name : string;
  file : string
}.

(** What is handed to [c.JSON]. *)
Inductive Body :=
| BodyText (s : string)
| BodyInvalid (what : string) (err : error)  (* Sprintf("invalid <what>: %v", err) *)
| BodyErrorText (err : error)                (* err.Error() *)
| BodyAPIService (s : Config.Service)        (* getAPIService(s) *)
| NoBody.

Record Response := {
  status : Z;
  body : Body
}.

Definition JSON (code : Z) (b : Body) : M Response :=
  ret {| status := code; body := b |}.

Definition NoContent (code : Z) : M Response :=
  ret {| status := code; body := NoBody |}.

Section Handlers.

(** [config.IsValidServiceType] and [service.GetService] are declared
    outside the files modelled here; both only read the configuration. *)
Variable IsValidServiceType : string -> bool.
Variable GetService : string -> string -> Config.Service.

(** [service.CreateBackup], as the started goroutine calls it, and
    [service.DeleteBackup]. *)
Variable service_CreateBackup : Config.Service -> M (option error).
Variable service_DeleteBackup : string -> string -> string -> M (option error).

Definition CreateBackup (c : Request) : M Response :=
  let serviceType := service_type c in
  match Go.QueryUnescape (service_name c) with
  | inr e =>
      log_line (Errorf "%v" [] (EscapeError e)) ;;;
      JSON StatusBadRequest (BodyInvalid "service name" (EscapeError e))
  | inl serviceName =>
      if negb (IsValidServiceType serviceType) then
        JSON StatusBadRequest (BodyText ("unsupported service type: " ++ serviceType))
      else
        let serviceInstance := GetService serviceType serviceName in
        if Go.len (Config.Name serviceInstance) =? 0 then
          let err := errorString ("could not find service [" ++ serviceName ++ "] to backup") in
          log_line (Errorf "%v" [] err) ;;;
          JSON StatusNotFound (BodyErrorText err)
        else
          go (BackupTask serviceInstance serviceName) ;;;
          JSON StatusAccepted (BodyAPIService serviceInstance)
  end.

(** The body of the goroutine started by [CreateBackup]. *)
Definition runTask (t : Task) : M unit :=
  match t with
  | BackupTask serviceInstance serviceName =>
      r <- service_CreateBackup serviceInstance ;;
      match r with
      | Some err =>
          log_line (Errorf "requested backup for service [%s] failed: %v" [serviceName] err)
      | None => ret tt
      end
  end.

Fixpoint runTasks (ts : list Task) : M unit :=
  match ts with
  | [] => ret tt
  | t :: ts' => runTask t ;;; runTasks ts'
  end.

(** A request served to the end: the handler produces the response, then
    the goroutines it started run. *)
Definition serveCreateBackup (c : Request) : M Response :=
  fun w =>
    let '(resp, w1) := CreateBackup c w in
    let started := drop (length (tasks w)) (tasks w1) in
    let '(_, w2) := runTasks started w1 in
    (resp, w2).

Definition DeleteBackup (c : Request) : M Response :=
  let serviceType := service_type c in
  match Go.QueryUnescape (service_name c) with
  | inr e =>
      log_line (Errorf "%v" [] (EscapeError e)) ;;;
      JSON StatusBadRequest (BodyInvalid "service name" (EscapeError e))
  | inl serviceName =>
      match Go.QueryUnescape (file c) with
      | inr e =>
          log_line (Errorf "%v" [] (EscapeError e)) ;;;
          JSON StatusBadRequest (BodyInvalid "filename" (EscapeError e))
      | inl filename =>
          r <- service_DeleteBackup serviceType serviceName filename ;;
          match r with
          | Some err => JSON StatusInternalServerError (BodyErrorText err)
          | None => NoContent StatusNoContent
          end
      end
  end.

End Handlers.

End Api.


(** ** router/ui/handler.go *)

Module Ui.

Import Effects.

(** The services shown by the UI, grouped by binding type. *)
Record Handler := {
  Services : Go.map (list Config.Service)
}.

Record PageError := {
  Code : Z;
  Message : string;
  Time : Z
}.

Record Page := {
  Title : string;
  Page_Service : Config.Service;
  Page_Services : Go.map (list Config.Service);
  Page_AllServices : Go.map (list Config.Service);
  Page_Backup : Service.Backup;
  Page_Backups : list Service.Backup;
  Error : PageError
}.

Definition zeroBackup : Service.Backup :=
  {| Service.Backup_Service := Config.zeroService; Service.Backup_Files := [] |}.

Definition newPage (h : Handler) (title : string) : Page :=
  {| Title := title;
     Page_Service := Config.zeroService;
     Page_Services := Services h;
     Page_AllServices := Services h;
     Page_Backup := zeroBackup;
     Page_Backups := [];
     Error := {| Code := 0; Message := ""; Time := 0 |} |}.

(** What [c.Render] receives. *)
Record Rendered := {
  render_code : Z;
  render_template : string;
  render_page : Page
}.

(** [c.Render] writes the response header with the code it is given:
    net/http panics on a code outside 100..999. *)
Definition valid_status (code : Z) : bool := (100 <=? code) && (code <=? 999).

(** [c.Render(code, name, page)] with the renderer in place. *)
Definition Render (code : Z) (name : string) (page : Page) : Go.outcome Rendered :=
  if valid_status code then
    Go.Ok {| render_code := code; render_template := name; render_page := page |}
  else Go.Panic "invalid WriteHeader code".

(** [ErrorHandler], with the reading of [time.Now()] as an argument.  The
    type assertion [he.Message.(string)] panics on a message that is not a
    string. *)
Definition ErrorHandler (h : Handler) (err : error) (now : Z)
    : M (Go.outcome Rendered) :=
  let finish (code : Z) (message : string) :=
    let page := newPage h "Error" in
    let page :=
      {| Title := Title page;
         Page_Service := Page_Service page;
         Page_Services := None;
         Page_AllServices := None;
         Page_Backup := Page_Backup page;
         Page_Backups := Page_Backups page;
         Error := {| Code := code; Message := message; Time := now |} |} in
    log_line (Errorf "%v" [] err) ;;;
    ret (Render code "error.html" page) in
  match err with
  | HTTPError code (MessageString s) => finish code s
  | HTTPError code MessageOther =>
      ret (Go.Panic "interface conversion: interface {} is not string")
  | _ => finish Api.StatusInternalServerError "Error"
  end.

(** The validator given to [middleware.BasicAuth] (lines 65-70): whether it
    grants access (its error result is always nil), together with the
    number of byte comparisons it executes.  [&&] evaluates its
    right operand only when the left one holds. *)
Definition BasicAuth_run (username password u p : string) : bool * nat :=
  let '(r1, n1) := Go.ConstantTimeCompare_run (Go.bytes u) (Go.bytes username) in
  if r1 =? 1 then
    let '(r2, n2) := Go.ConstantTimeCompare_run (Go.bytes p) (Go.bytes password) in
    if r2 =? 1 then (true, (n1 + n2)%nat) else (false, (n1 + n2)%nat)
  else (false, n1).

Definition BasicAuth (username password u p : string) : bool :=
  fst (BasicAuth_run username password u p).

Definition BasicAuth_cost (username password u p : string) : nat :=
  snd (BasicAuth_run username password u p).

End Ui.


(** ** config/config.go: the package variables behind [Get] *)

Module Package.

Import Go Config.

(** The package variables [config], [once] and [configFile]; [once] is
    true after [once.Do] has run its function. *)
Record Vars := {
  config : Config;
  once : bool;
  configFile : string
}.

Definition initial : Vars :=
  {| config := zeroConfig; once := false; configFile := "config.json" |}.

(** The operating system as [new] meets it: what stands at each path, and
    the environment.  The field [Config.configFile] of [environment] is not
    read: the file comes from [file_at]. *)
Record OS := {
  file_at : string -> FileLoad;
  environment : Inputs
}.

Definition inputs (os : OS) (path : string) : Inputs :=
  {| Config.configFile := file_at os path;
     BackmanConfig := BackmanConfig (environment os);
     BackmanPort := BackmanPort (environment os);
     BackmanUsername := BackmanUsername (environment os);
     BackmanPassword := BackmanPassword (environment os);
     BackmanEncryptionKey := BackmanEncryptionKey (environment os);
     BackmanTeamsWebhook := BackmanTeamsWebhook (environment os);
     BackmanTeamsEvents := BackmanTeamsEvents (environment os) |}.

Definition SetConfigFile (file : string) (v : Vars) : Vars :=
  {| config := config v; once := once v; configFile := file |}.

(** [Get]: the first call runs [new] and stores its result; [log.Fatalln]
    and a panic end the process. *)
Definition Get (os : OS) (v : Vars) : outcome (Config * Vars) :=
  if once v then Ok (config v, v)
  else
    match new (inputs os (configFile v)) with
    | Ok c => Ok (c, {| config := c; once := true; configFile := configFile v |})
    | Fatal m => Fatal m
    | Panic m => Panic m
    end.

Definition Init (os : OS) (v : Vars) : outcome Vars :=
  match Get os v with
  | Ok (_, v') => Ok v'
  | Fatal m => Fatal m
  | Panic m => Panic m
  end.

(** The names of the services of a configuration. *)
Definition names (m : Go.map Service) : gset string :=
  match m with
  | None => ∅
  | Some g => dom g
  end.

(** The loop of lines 172-238 run over the entries of
    [envConfig.Services] in a given order: Go leaves the order of a [range]
    over a map open. *)
Definition mergeInOrder (entries : list (string * Service))
    (services : gmap string Service) : gmap string Service :=
  fold_left (fun acc kv => mergeStep (fst kv) (snd kv) acc) entries services.

End Package.


(** ** router/api/backup.go: the reading handlers *)

Module ApiRead.

Import Effects.

(** The request as the handlers read it: path parameters and query
    parameters, each empty when absent. *)
Record Context := {
  Param : string -> string;
  QueryParam : string -> string
}.

(** A Go slice: [None] is [nil]. *)
Definition slice (A : Type) : Type := option (list A).

Definition elems {A} (s : slice A) : list A := default [] s.

Definition append {A} (s : slice A) (x : A) : slice A :=
  Some (elems s ++ [x])%list.

(** [api.File] and [api.Backup]; the field [Service] holds the service
    that [getAPIService] is applied to. *)
Record File := {
  Key : string;
  Filepath : string;
  Filename : string;
  Size : Z;
  LastModified : Z
}.

Record Backup := {
  Service : Config.Service;
  Files : slice File
}.

Definition getAPIFile (file : Service.File) : File :=
  {| Key := Service.Key file;
     Filepath := Service.Filepath file;
     Filename := Service.Filename file;
     Size := Service.Size file;
     LastModified := Service.LastModified file |}.

Definition getAPIBackup (backup : Service.Backup) : Backup :=
  let files :=
    fold_left (fun files file => append files (getAPIFile file))
      (Service.Backup_Files backup) (Some []) in
  {| Service := Service.Backup_Service backup; Files := files |}.

(** What a handler hands to [c.JSON] or [c.Stream]. *)
Inductive Payload :=
| JSONText (s : string)
| JSONInvalid (what : string) (err : error)  (* Sprintf("invalid <what>: %v", err) *)
| JSONErrorText (err : error)                (* err.Error() *)
| JSONErrorValue (err : error)               (* the error value itself *)
| JSONBackup (b : Backup)
| JSONBackups (bs : slice Backup)
| Stream (contentType : string) (reader : string).

Record Reply := {
  status : Z;
  header : list (string * string);
  payload : Payload
}.

Definition JSON (code : Z) (p : Payload) : M Reply :=
  ret {| status := code; header := []; payload := p |}.

Definition StatusOK : Z := 200.

(** The byte 34, the double quote. *)
Definition quote : string := String "034"%char EmptyString.

Definition HeaderContentDisposition : string := "Content-Disposition".

Section Handlers.

(** The functions of package [service] that the handlers call, with the
    two results of each as a pair. *)
Variable service_GetBackups :
  string -> string -> M (list Service.Backup * option error).
Variable service_GetBackup :
  string -> string -> string -> M (option Service.Backup * option error).
Variable service_ReadBackup :
  string -> string -> string -> M (string * option error).

Definition ListBackups (c : Context) : M Reply :=
  let serviceType := QueryParam c "service_type" in
  match Go.QueryUnescape (Param c "service_name") with
  | inr e =>
      log_line (Errorf "%v" [] (EscapeError e)) ;;;
      JSON Api.StatusBadRequest (JSONInvalid "service name" (EscapeError e))
  | inl serviceName =>
      r <- service_GetBackups serviceType serviceName ;;
      match snd r with
      | Some err => JSON Api.StatusNotFound (JSONErrorText err)
      | None =>
          let backups :=
            fold_left (fun backups backup => append backups (getAPIBackup backup))
              (fst r) (Some []) in
          JSON StatusOK (JSONBackups backups)
      end
  end.

Definition GetBackups (c : Context) : M Reply :=
  let serviceType := QueryParam c "service_type" in
  match Go.QueryUnescape (Param c "service_name") with
  | inr e =>
      log_line (Errorf "%v" [] (EscapeError e)) ;;;
      JSON Api.StatusBadRequest (JSONInvalid "service name" (EscapeError e))
  | inl serviceName =>
      r <- service_GetBackups serviceType serviceName ;;
      match snd r with
      | Some err => JSON Api.StatusNotFound (JSONErrorText err)
      | None =>
          match fst r with
          | [backup] => JSON StatusOK (JSONBackup (getAPIBackup backup))
          | _ =>
              JSON Api.StatusNotFound (JSONErrorValue (errorString "backups not found"))
          end
      end
  end.

(** [GetBackup] reads [backup.Files] through the pointer it was given: a
    nil pointer next to a nil error panics. *)
Definition GetBackup (c : Context) : M (Go.outcome Reply) :=
  let serviceType := Param c "service_type" in
  match Go.QueryUnescape (Param c "service_name") with
  | inr e =>
      log_line (Errorf "%v" [] (EscapeError e)) ;;;
      r <- JSON Api.StatusBadRequest (JSONInvalid "service name" (EscapeError e)) ;;
      ret (Go.Ok r)
  | inl serviceName =>
      match Go.QueryUnescape (Param c "file") with
      | inr e =>
          log_line (Errorf "%v" [] (EscapeError e)) ;;;
          r <- JSON Api.StatusBadRequest (JSONInvalid "filename" (EscapeError e)) ;;
          ret (Go.Ok r)
      | inl filename =>
          r <- service_GetBackup serviceType serviceName filename ;;
          match snd r with
          | Some err =>
              r <- JSON Api.StatusNotFound (JSONErrorText err) ;; ret (Go.Ok r)
          | None =>
              match fst r with
              | None => ret (Go.Panic "invalid memory address or nil pointer dereference")
              | Some backup =>
                  match Service.Backup_Files backup with
                  | [] =>
                      r <- JSON Api.StatusNotFound
                             (JSONErrorValue (errorString "file not found")) ;;
                      ret (Go.Ok r)
                  | first :: _ =>
                      if Go.len (Service.Filename first) =? 0 then
                        r <- JSON Api.StatusNotFound
                               (JSONErrorValue (errorString "file not found")) ;;
                        ret (Go.Ok r)
                      else
                        r <- JSON StatusOK (JSONBackup (getAPIBackup backup)) ;;
                        ret (Go.Ok r)
                  end
              end
          end
      end
  end.

Definition DownloadBackup (c : Context) : M Reply :=
  let serviceType := Param c "service_type" in
  match Go.QueryUnescape (Param c "service_name") with
  | inr e =>
      log_line (Errorf "%v" [] (EscapeError e)) ;;;
      JSON Api.StatusBadRequest (JSONInvalid "service name" (EscapeError e))
  | inl serviceName =>
      match Go.QueryUnescape (Param c "file") with
      | inr e =>
          log_line (Errorf "%v" [] (EscapeError e)) ;;;
          JSON Api.StatusBadRequest (JSONInvalid "filename" (EscapeError e))
      | inl filename =>
          r <- service_ReadBackup serviceType serviceName filename ;;
          match snd r with
          | Some err => JSON Api.StatusInternalServerError (JSONErrorText err)
          | None =>
              ret {| status := StatusOK;
                     header :=
                       [(HeaderContentDisposition,
                         "attachment; filename=" ++ quote ++ filename ++ quote)];
                     payload := Stream "application/gzip" (fst r) |}
          end
      end
  end.

End Handlers.

End ApiRead.


(** ** router/ui/handler.go: [New] *)

Module UiNew.

(** One iteration of the loop of [New]. *)
Definition step (services : gmap string (list Config.Service))
    (s : Config.Service) : gmap string (list Config.Service) :=
  let t := Config.Binding_Type (Config.Binding s) in
  let services :=
    match services !! t with
    | Some _ => services
    | None => <[t := []]> services
    end in
  <[t := (default [] (services !! t) ++ [s])%list]> services.

(** [New], with the services of the configuration in the order in which
    the [range] over the map visits them. *)
Definition New (visited : list Config.Service) : Ui.Handler :=
  {| Ui.Services := Some (fold_left step visited ∅) |}.

(** The services of one binding type, in visiting order. *)
Definition of_type (t : string) (visited : list Config.Service)
    : list Config.Service :=
  List.filter (fun s => String.eqb (Config.Binding_Type (Config.Binding s)) t) visited.

End UiNew.


(** ** Sample inputs *)

Module Sample.

Definition world : Effects.World :=
  {| Effects.tracker := ∅; Effects.transitions := [];
     Effects.catalog := ∅; Effects.s3_up := true;
     Effects.log := []; Effects.tasks := [] |}.

(** A configuration with the postgres service "orders". *)
Definition IsValidServiceType (t : string) : bool :=
  String.eqb t "postgres" || String.eqb t "redis".

Definition orders : Config.Service :=
  {| Config.Name := "orders"; Config.Schedule := "0 0 2 * * *";
     Config.Timeout := 30 * 10 ^ 9;
     Config.Retention := {| Config.Days := 7; Config.Files := 3 |};
     Config.DirectS3 := true; Config.DisableColumnStatistics := false;
     Config.LogStdErr := false; Config.ForceImport := false;
     Config.LocalBackupPath := ""; Config.IgnoreTables := [];
     Config.BackupOptions := []; Config.RestoreOptions := [];
     Config.Binding :=
       {| Config.Binding_Type := "postgres"; Config.Binding_Provider := "";
          Config.Binding_Host := "db.local"; Config.Binding_Port := 5432;
          Config.Binding_URI := ""; Config.Binding_Username := "backman";
          Config.Binding_Password := "secret"; Config.Binding_Database := "orders" |} |}.

Definition GetService (t n : string) : Config.Service :=
  if String.eqb t "postgres" && String.eqb n "orders" then orders
  else Config.zeroService.

Definition post (t n : string) : Api.Request :=
  {| Api.service_type := t; Api.service_name := n; Api.file := "" |}.

Definition delete_request : Api.Request :=
  {| Api.service_type := "postgres"; Api.service_name := "orders";
     Api.file := "orders_20200101.gz" |}.

(** Two backup jobs: one that succeeds, one that fails. *)
Definition job_ok (s : Config.Service) : Effects.M (option Effects.error) :=
  Effects.ret None.

Definition job_fails (s : Config.Service) : Effects.M (option Effects.error) :=
  Effects.ret (Some (Effects.errorString "pg_dump: connection refused")).

Definition key : State.ServiceKey := ("postgres", "orders").
Definition other : State.ServiceKey := ("redis", "cache").

(** Three callers race for "orders" while its task starts running and a
    caller asks for another service. *)
Definition schedule : list Service.Action :=
  [Service.Call key; Service.Call key; Service.Run key; Service.Call other;
   Service.Call key].

(** The configuration file: the web UI is disabled, "orders" is backed up
    straight to object storage with a timeout of thirty seconds. *)
Definition file_config : Config.Config :=
  {| Config.Port := 8080; Config.LogLevel := "debug";
     Config.LoggingTimestamp := false;
     Config.Username := "admin"; Config.Password := "file-secret";
     Config.DisableWeb := true; Config.DisableMetrics := false;
     Config.DisableRestore := false; Config.UnprotectedMetrics := false;
     Config.Notifications :=
       {| Config.Teams := {| Config.Webhook := ""; Config.Events := [] |} |};
     Config.S3 := Config.zeroS3;
     Config.Services := Some {[ "orders" := orders ]};
     Config.Foreground := false |}.

(** The entry of "orders" in the environment: another schedule, a timeout
    of one second, direct upload switched off. *)
Definition env_orders : Config.Service :=
  {| Config.Name := ""; Config.Schedule := "0 0 4 * * *";
     Config.Timeout := 10 ^ 9;
     Config.Retention := {| Config.Days := 0; Config.Files := 5 |};
     Config.DirectS3 := false; Config.DisableColumnStatistics := false;
     Config.LogStdErr := true; Config.ForceImport := false;
     Config.LocalBackupPath := ""; Config.IgnoreTables := [];
     Config.BackupOptions := []; Config.RestoreOptions := [];
     Config.Binding := Config.zeroBinding |}.

Definition env_config : Config.Config :=
  {| Config.Port := 0; Config.LogLevel := "warn";
     Config.LoggingTimestamp := true;
     Config.Username := "operator"; Config.Password := "";
     Config.DisableWeb := false; Config.DisableMetrics := false;
     Config.DisableRestore := false; Config.UnprotectedMetrics := false;
     Config.Notifications :=
       {| Config.Teams := {| Config.Webhook := ""; Config.Events := [] |} |};
     Config.S3 := Config.zeroS3;
     Config.Services := Some {[ "orders" := env_orders ]};
     Config.Foreground := false |}.

Definition inputs : Config.Inputs :=
  {| Config.configFile := Config.FileLoaded file_config;
     Config.BackmanConfig := Config.EnvLoaded env_config;
     Config.BackmanPort := "9000";
     Config.BackmanUsername := "";
     Config.BackmanPassword := "";
     Config.BackmanEncryptionKey := "";
     Config.BackmanTeamsWebhook := "";
     Config.BackmanTeamsEvents := "" |}.

(** The configuration [new] resolves from [inputs]. *)
Definition resolved_orders : Config.Service :=
  {| Config.Name := "orders"; Config.Schedule := "0 0 4 * * *";
     Config.Timeout := 30 * 10 ^ 9;
     Config.Retention := {| Config.Days := 7; Config.Files := 5 |};
     Config.DirectS3 := true; Config.DisableColumnStatistics := false;
     Config.LogStdErr := true; Config.ForceImport := false;
     Config.LocalBackupPath := ""; Config.IgnoreTables := [];
     Config.BackupOptions := []; Config.RestoreOptions := [];
     Config.Binding := Config.Binding orders |}.

Definition resolved : Config.Config :=
  {| Config.Port := 8080; Config.LogLevel := "warn";
     Config.LoggingTimestamp := true;
     Config.Username := "operator"; Config.Password := "file-secret";
     Config.DisableWeb := true; Config.DisableMetrics := false;
     Config.DisableRestore := false; Config.UnprotectedMetrics := false;
     Config.Notifications :=
       {| Config.Teams := {| Config.Webhook := ""; Config.Events := [] |} |};
     Config.S3 := Config.zeroS3;
     Config.Services := Some {[ "orders" := resolved_orders ]};
     Config.Foreground := false |}.

(** The same inputs with the password variable set. *)
Definition inputs_with_password : Config.Inputs :=
  {| Config.configFile := Config.FileLoaded file_config;
     Config.BackmanConfig := Config.EnvLoaded env_config;
     Config.BackmanPort := "9000";
     Config.BackmanUsername := "";
     Config.BackmanPassword := "from-variable";
     Config.BackmanEncryptionKey := "";
     Config.BackmanTeamsWebhook := "";
     Config.BackmanTeamsEvents := "" |}.

(** Neither a file nor a configuration in the environment. *)
Definition inputs_bare : Config.Inputs :=
  {| Config.configFile := Config.NoFile;
     Config.BackmanConfig := Config.EnvEmpty;
     Config.BackmanPort := "9000";
     Config.BackmanUsername := "";
     Config.BackmanPassword := "";
     Config.BackmanEncryptionKey := "";
     Config.BackmanTeamsWebhook := "";
     Config.BackmanTeamsEvents := "" |}.

(** Two services in the environment, and a machine with the sample file
    at "config.json" only. *)
Definition env_services : gmap string Config.Service :=
  {[ "orders" := env_orders; "cache" := Config.zeroService ]}.

Definition os : Package.OS :=
  {| Package.file_at :=
       fun path => if String.eqb path "config.json"
                   then Config.FileLoaded file_config else Config.NoFile;
     Package.environment := inputs |}.

(** The same machine after the environment lost its configuration. *)
Definition os_later : Package.OS :=
  {| Package.file_at := fun _ => Config.NoFile;
     Package.environment := inputs_bare |}.

(** Package [service] over a catalog with two backups of "orders". *)
Definition dump (n : string) : Service.File :=
  {| Service.Key := "postgres/orders/" ++ n; Service.Filepath := "postgres/orders";
     Service.Filename := n; Service.Size := 1024; Service.LastModified := 1577836800 |}.

Definition orders_backup : Service.Backup :=
  {| Service.Backup_Service := orders;
     Service.Backup_Files := [dump "orders 2.gz"; dump "orders 1.gz"] |}.

Definition GetBackups (t n : string)
    : Effects.M (list Service.Backup * option Effects.error) :=
  if String.eqb t "postgres" && String.eqb n "orders"
  then Effects.ret ([orders_backup], None)
  else if String.eqb n "" then Effects.ret ([], None)
  else Effects.ret ([], Some (Effects.errorString "service not found")).

Definition GetBackup (t n f : string)
    : Effects.M (option Service.Backup * option Effects.error) :=
  if String.eqb t "postgres" && String.eqb n "orders" then
    Effects.ret
      (Some {| Service.Backup_Service := orders;
               Service.Backup_Files :=
                 List.filter (fun x => String.eqb (Service.Filename x) f)
                   (Service.Backup_Files orders_backup) |}, None)
  else Effects.ret (None, Some (Effects.errorString "service not found")).

Definition ReadBackup (t n f : string) : Effects.M (string * option Effects.error) :=
  if String.eqb f "orders 1.gz" then Effects.ret ("gzip-bytes", None)
  else Effects.ret ("", Some (Effects.NotFoundError f)).

(** GET backup/postgres/orders/orders+1.gz, with the query string
    service_type=postgres. *)
Definition get : ApiRead.Context :=
  {| ApiRead.Param :=
       fun k => if String.eqb k "service_type" then "postgres"
                else if String.eqb k "service_name" then "orders"
                else if String.eqb k "file" then "orders+1.gz" else "";
     ApiRead.QueryParam :=
       fun k => if String.eqb k "service_type" then "postgres" else "" |}.

(** The same request under another type in its path. *)
Definition get_other_path : ApiRead.Context :=
  {| ApiRead.Param :=
       fun k => if String.eqb k "service_type" then "mysql"
                else if String.eqb k "service_name" then "orders" else "";
     ApiRead.QueryParam :=
       fun k => if String.eqb k "service_type" then "postgres" else "" |}.

(** Three services as a range over the configuration may visit them. *)
Definition cache : Config.Service :=
  {| Config.Name := "cache"; Config.Schedule := ""; Config.Timeout := 0;
     Config.Retention := {| Config.Days := 0; Config.Files := 0 |};
     Config.DirectS3 := false; Config.DisableColumnStatistics := false;
     Config.LogStdErr := false; Config.ForceImport := false;
     Config.LocalBackupPath := ""; Config.IgnoreTables := [];
     Config.BackupOptions := []; Config.RestoreOptions := [];
     Config.Binding :=
       {| Config.Binding_Type := "redis"; Config.Binding_Provider := "";
          Config.Binding_Host := "cache.local"; Config.Binding_Port := 6379;
          Config.Binding_URI := ""; Config.Binding_Username := "";
          Config.Binding_Password := ""; Config.Binding_Database := "" |} |}.

Definition visited : list Config.Service := [orders; cache; resolved_orders].

End Sample.


(** * Properties *)

(** ** The standard-library models on sample inputs *)


Example Base_plain : Go.Base "redis/my-redis/dump_2020.gz" = "dump_2020.gz".
Proof. reflexivity. Qed.

Example Base_trailing : Go.Base "a/b///" = "b".
Proof. reflexivity. Qed.

Example Base_slashes : Go.Base "///" = "/".
Proof. reflexivity. Qed.

Example Base_empty : Go.Base "" = ".".
Proof. reflexivity. Qed.

Example QueryUnescape_ok : Go.QueryUnescape "my%2Ddb+1" = inl "my-db 1".
Proof. reflexivity. Qed.

Example QueryUnescape_bad : Go.QueryUnescape "db%zz9" = inr "%zz".
Proof. reflexivity. Qed.

Example QueryUnescape_short : Go.QueryUnescape "db%4" = inr "%4".
Proof. reflexivity. Qed.

Example Atoi_examples :
  Go.Atoi_value "8080" = 8080 /\ Go.Atoi_value "-5" = -5 /\
  Go.Atoi_value "" = 0 /\ Go.Atoi_value "80a" = 0 /\ Go.Atoi_value "+" = 0.
Proof. repeat split; reflexivity. Qed.

Example Split_example : Go.Split_comma "backup-failed,,restore" = ["backup-failed"; ""; "restore"].
Proof. reflexivity. Qed.

Example ConstantTimeCompare_examples :
  Go.ConstantTimeCompare_run (Go.bytes "admin") (Go.bytes "admin") = (1, 5%nat) /\
  Go.ConstantTimeCompare_run (Go.bytes "xdmin") (Go.bytes "admin") = (0, 5%nat) /\
  Go.ConstantTimeCompare_run (Go.bytes "adm") (Go.bytes "admin") = (0, 0%nat).
Proof. repeat split; reflexivity. Qed.


(** ** redis restore *)

Section RedisRestore.

Import Effects.

Variable queue : Redis.Service -> State.Tracker -> State.Tracker.
Variable failure : Redis.Service -> string -> State.Tracker -> State.Tracker.
Variables (ctx : Redis.Context) (s3 : Redis.S3Client) (service : Redis.Service)
  (binding : Redis.CfenvService) (objectPath : string) (w : World).

Let result := Redis.Restore queue failure ctx s3 service binding objectPath w.

(** Everything [Restore] does, spelled out. *)
Lemma Restore_unfold :
  result =
  (Some (errorString "redis restore: unsupported"),
   {| tracker := failure service (Go.Base objectPath) (queue service (tracker w));
      transitions := transitions w;
      catalog := catalog w;
      s3_up := s3_up w;
      log := log w ++ [Errorln "restoring redis is not supported, please contact your redis database administrator"];
      tasks := tasks w |}).
Proof. reflexivity. Qed.

End RedisRestore.

(** C2.  Whatever package [state] does when called, and whatever the
    context, client, service, binding and object path, the redis [Restore]
    returns the non-nil error "redis restore: unsupported"; it leaves
    object storage as it is, starts no task, and its outcome does not depend
    on the context, the client or the binding. *)
Theorem redis_restore_always_unsupported :
  forall queue failure ctx s3 service binding objectPath w,
    let w' := snd (Redis.Restore queue failure ctx s3 service binding objectPath w) in
    fst (Redis.Restore queue failure ctx s3 service binding objectPath w)
      = Some (Effects.errorString "redis restore: unsupported")
    /\ Effects.catalog w' = Effects.catalog w
    /\ Effects.s3_up w' = Effects.s3_up w
    /\ Effects.tasks w' = Effects.tasks w
    /\ forall ctx' s3' binding',
         Redis.Restore queue failure ctx' s3' service binding' objectPath w
         = Redis.Restore queue failure ctx s3 service binding objectPath w.
Proof.
  intros queue failure ctx s3 service binding objectPath w w'. subst w'.
  rewrite Restore_unfold. cbn. repeat split.
Qed.





(** ** REST handlers *)

Section ApiHandlers.

Import Effects.

Variable IsValidServiceType : string -> bool.
Variable GetService : string -> string -> Config.Service.

Let handler := Api.CreateBackup IsValidServiceType GetService.

(** The three ways the POST handler ends, one per validation verdict. *)
Lemma CreateBackup_bad_name c e w :
  Go.QueryUnescape (Api.service_name c) = inr e ->
  handler c w =
  ({| Api.status := 400; Api.body := Api.BodyInvalid "service name" (EscapeError e) |},
   snd (log_line (Errorf "%v" [] (EscapeError e)) w)).
Proof. intros H. unfold handler, Api.CreateBackup. rewrite H. reflexivity. Qed.

Lemma CreateBackup_bad_type c w :
  IsValidServiceType (Api.service_type c) = false ->
  Api.status (fst (handler c w)) = 400
  /\ tracker (snd (handler c w)) = tracker w
  /\ transitions (snd (handler c w)) = transitions w
  /\ tasks (snd (handler c w)) = tasks w.
Proof.
  intros H. unfold handler, Api.CreateBackup.
  destruct (Go.QueryUnescape (Api.service_name c)) as [n|e]; [rewrite H|];
    cbn; repeat split.
Qed.

Lemma CreateBackup_unknown_service c n w :
  Go.QueryUnescape (Api.service_name c) = inl n ->
  IsValidServiceType (Api.service_type c) = true ->
  Config.Name (GetService (Api.service_type c) n) = "" ->
  handler c w =
  ({| Api.status := 404;
      Api.body := Api.BodyErrorText
                    (errorString ("could not find service [" ++ n ++ "] to backup")) |},
   snd (log_line (Errorf "%v" []
          (errorString ("could not find service [" ++ n ++ "] to backup"))) w)).
Proof.
  intros Hn Hv Hs. unfold handler, Api.CreateBackup. rewrite Hn, Hv, Hs. reflexivity.
Qed.

Lemma CreateBackup_accepted c n w :
  Go.QueryUnescape (Api.service_name c) = inl n ->
  IsValidServiceType (Api.service_type c) = true ->
  Config.Name (GetService (Api.service_type c) n) <> "" ->
  handler c w =
  ({| Api.status := 202;
      Api.body := Api.BodyAPIService (GetService (Api.service_type c) n) |},
   snd (go (BackupTask (GetService (Api.service_type c) n) n) w)).
Proof.
  intros Hn Hv Hs. unfold handler, Api.CreateBackup. rewrite Hn, Hv. cbn [negb].
  destruct (Config.Name (GetService (Api.service_type c) n)) as [|a s] eqn:E;
    [congruence|].
  reflexivity.
Qed.

End ApiHandlers.

(** C4.  When the service name decodes, the type is recognised and the
    service is found, [CreateBackup] answers 202 Accepted with the descriptor
    of the service and leaves exactly one new backup task behind, without
    having touched the tracker; and serving the request to the end gives that
    same response whatever [service.CreateBackup] later does or returns. *)
Theorem CreateBackup_202_independent_of_job :
  forall IsValidServiceType GetService (c : Api.Request) n w,
    Go.QueryUnescape (Api.service_name c) = inl n ->
    IsValidServiceType (Api.service_type c) = true ->
    Config.Name (GetService (Api.service_type c) n) <> "" ->
    let svc := GetService (Api.service_type c) n in
    let accepted := {| Api.status := Api.StatusAccepted; Api.body := Api.BodyAPIService svc |} in
    let r := Api.CreateBackup IsValidServiceType GetService c w in
    fst r = accepted
    /\ Effects.tasks (snd r) = (Effects.tasks w ++ [Effects.BackupTask svc n])%list
    /\ Effects.tracker (snd r) = Effects.tracker w
    /\ Effects.transitions (snd r) = Effects.transitions w
    /\ Effects.log (snd r) = Effects.log w
    /\ forall job : Config.Service -> Effects.M (option Effects.error),
         fst (Api.serveCreateBackup IsValidServiceType GetService job c w) = accepted.
Proof.
  intros V G c n w Hn Hv Hs svc accepted r. subst r.
  pose proof (CreateBackup_accepted V G c n w Hn Hv Hs) as E.
  rewrite E. cbn. repeat split.
  intros job. unfold Api.serveCreateBackup. rewrite E. cbn.
  destruct (Api.runTasks job _ _). reflexivity.
Qed.

(** C5.  A request with an unrecognised service type is answered 400, a
    request whose type is recognised and whose decoded name matches no
    service is answered 404; in both cases no task is started, the tracker is
    not written, and serving the request to the end never calls
    [service.CreateBackup]. *)
Theorem CreateBackup_validates_first :
  forall IsValidServiceType GetService (c : Api.Request) w,
    let r := Api.CreateBackup IsValidServiceType GetService c w in
    let untouched :=
      Effects.tasks (snd r) = Effects.tasks w
      /\ Effects.tracker (snd r) = Effects.tracker w
      /\ Effects.transitions (snd r) = Effects.transitions w
      /\ forall job, Api.serveCreateBackup IsValidServiceType GetService job c w = r in
    (IsValidServiceType (Api.service_type c) = false ->
       Api.status (fst r) = Api.StatusBadRequest /\ untouched)
    /\ (forall n,
          Go.QueryUnescape (Api.service_name c) = inl n ->
          IsValidServiceType (Api.service_type c) = true ->
          Config.Name (GetService (Api.service_type c) n) = "" ->
          Api.status (fst r) = Api.StatusNotFound /\ untouched).
Proof.
  intros V G c w r untouched. subst untouched r. split.
  - intros Hv.
    destruct (CreateBackup_bad_type V G c w Hv) as (Hs & Ht & Htr & Hta).
    repeat split; try assumption.
    intros job. unfold Api.serveCreateBackup.
    destruct (Api.CreateBackup V G c w) as [resp w1] eqn:E. cbn in Hta.
    rewrite Hta, drop_all. reflexivity.
  - intros n Hn Hv Hs.
    pose proof (CreateBackup_unknown_service V G c n w Hn Hv Hs) as E.
    rewrite E. cbn. repeat split.
    intros job. unfold Api.serveCreateBackup. rewrite E. cbn.
    rewrite drop_all. reflexivity.
Qed.

Section ApiDelete.

Import Effects.

Variable service_DeleteBackup : string -> string -> string -> M (option error).

(** Every error of [service.DeleteBackup] takes the same path through the
    handler. *)
Lemma DeleteBackup_error c n f err w w' :
  Go.QueryUnescape (Api.service_name c) = inl n ->
  Go.QueryUnescape (Api.file c) = inl f ->
  service_DeleteBackup (Api.service_type c) n f w = (Some err, w') ->
  Api.DeleteBackup service_DeleteBackup c w =
  ({| Api.status := 500; Api.body := Api.BodyErrorText err |}, w').
Proof.
  intros Hn Hf He. unfold Api.DeleteBackup. rewrite Hn, Hf.
  unfold bind. rewrite He. reflexivity.
Qed.

Lemma DeleteBackup_done c n f w w' :
  Go.QueryUnescape (Api.service_name c) = inl n ->
  Go.QueryUnescape (Api.file c) = inl f ->
  service_DeleteBackup (Api.service_type c) n f w = (None, w') ->
  Api.DeleteBackup service_DeleteBackup c w =
  ({| Api.status := 204; Api.body := Api.NoBody |}, w').
Proof.
  intros Hn Hf He. unfold Api.DeleteBackup. rewrite Hn, Hf.
  unfold bind. rewrite He. reflexivity.
Qed.

End ApiDelete.

Lemma service_DeleteBackup_absent ty n f w :
  Effects.s3_up w = true ->
  Effects.catalog w !! Service.artifactKey ty n f = None ->
  Service.DeleteBackup ty n f w
  = (Some (Effects.NotFoundError (Service.artifactKey ty n f)), w).
Proof. intros Hup Hk. unfold Service.DeleteBackup. rewrite Hup, Hk. reflexivity. Qed.

Lemma service_DeleteBackup_down ty n f w :
  Effects.s3_up w = false ->
  Service.DeleteBackup ty n f w
  = (Some (Effects.StorageError "object storage unavailable"), w).
Proof. intros Hup. unfold Service.DeleteBackup. rewrite Hup. reflexivity. Qed.

(** C6, as stated, fails: deleting the file "a.gz" of the service
    postgres/orders from an empty catalog is answered with status 500, the
    status of a storage failure; the handler does not tell the two apart by
    status. *)
Lemma DeleteBackup_not_found_is_500 :
  let c := {| Api.service_type := "postgres"; Api.service_name := "orders";
              Api.file := "a.gz" |} in
  let w0 := {| Effects.tracker := ∅; Effects.transitions := [];
               Effects.catalog := ∅; Effects.s3_up := true;
               Effects.log := []; Effects.tasks := [] |} in
  fst (Service.DeleteBackup "postgres" "orders" "a.gz" w0)
    = Some (Effects.NotFoundError "postgres/orders/a.gz")
  /\ ~ (Api.status (fst (Api.DeleteBackup Service.DeleteBackup c w0))
        <> Api.StatusInternalServerError).
Proof. cbn zeta. split; [reflexivity|]. intros H. apply H. reflexivity. Qed.

(** C6, amended.  Deleting an artifact key that the catalog does not hold
    returns [NotFoundError] and changes nothing; the DELETE handler answers
    it with status 500 and the text of that error, the status it gives to
    every error of the delete, a storage failure included. *)
Theorem DeleteBackup_not_found :
  forall (c : Api.Request) n f w,
    Go.QueryUnescape (Api.service_name c) = inl n ->
    Go.QueryUnescape (Api.file c) = inl f ->
    Effects.s3_up w = true ->
    Effects.catalog w !! Service.artifactKey (Api.service_type c) n f = None ->
    let key := Service.artifactKey (Api.service_type c) n f in
    Service.DeleteBackup (Api.service_type c) n f w = (Some (Effects.NotFoundError key), w)
    /\ Api.DeleteBackup Service.DeleteBackup c w
       = ({| Api.status := Api.StatusInternalServerError;
             Api.body := Api.BodyErrorText (Effects.NotFoundError key) |}, w)
    /\ (forall w_down, Effects.s3_up w_down = false ->
          Api.status (fst (Api.DeleteBackup Service.DeleteBackup c w_down))
          = Api.StatusInternalServerError)
    /\ (forall impl err w1 w2,
          impl (Api.service_type c) n f w1 = (Some err, w2) ->
          Api.DeleteBackup impl c w1
          = ({| Api.status := Api.StatusInternalServerError;
                Api.body := Api.BodyErrorText err |}, w2)).
Proof.
  intros c n f w Hn Hf Hup Hk key. subst key.
  pose proof (service_DeleteBackup_absent _ _ _ _ Hup Hk) as E.
  split; [exact E|].
  split; [exact (DeleteBackup_error _ c n f _ w w Hn Hf E)|].
  split.
  - intros w_down Hd.
    rewrite (DeleteBackup_error _ c n f _ w_down w_down Hn Hf
               (service_DeleteBackup_down _ _ _ _ Hd)).
    reflexivity.
  - intros impl err w1 w2 He. exact (DeleteBackup_error impl c n f err w1 w2 Hn Hf He).
Qed.


(** ** Single flight *)

Section SingleFlight.

Variable registered : string -> bool.
Variable key : State.ServiceKey.
Hypothesis key_registered : registered (fst key) = true.

Let n_calls := Service.n_calls key.
Let no_finish := Service.no_finish key.

Lemma Query_insert_ne (k : State.ServiceKey) (v : State.OperationState) (t : State.Tracker) :
  k <> key -> State.Query key (<[k := v]> t) = State.Query key t.
Proof. intros H. unfold State.Query. by rewrite lookup_insert_ne. Qed.

Lemma Query_insert_eq (v : State.OperationState) (t : State.Tracker) :
  State.Query key (<[key := v]> t) = v.
Proof. unfold State.Query. by rewrite lookup_insert_eq. Qed.

(** A call for another key leaves the entry of [key] alone. *)
Lemma CreateBackup_other k t :
  k <> key ->
  State.Query key (snd (Service.CreateBackup registered k t)) = State.Query key t.
Proof.
  intros H. unfold Service.CreateBackup, State.Reserve.
  destruct (registered k.1); cbn; [|reflexivity].
  destruct (State.in_flight _); cbn; [reflexivity|].
  by apply Query_insert_ne.
Qed.

Lemma CreateBackup_busy t :
  State.in_flight (State.phase (State.Query key t)) = true ->
  Service.CreateBackup registered key t = (Service.Busy, t).
Proof.
  intros H. unfold Service.CreateBackup, State.Reserve.
  rewrite key_registered, H. reflexivity.
Qed.

Lemma CreateBackup_free t :
  State.in_flight (State.phase (State.Query key t)) = false ->
  fst (Service.CreateBackup registered key t) = Service.Accepted
  /\ State.phase (State.Query key (snd (Service.CreateBackup registered key t)))
     = State.queued.
Proof.
  intros H. unfold Service.CreateBackup, State.Reserve.
  rewrite key_registered, H. cbn. by rewrite Query_insert_eq.
Qed.

Lemma MarkRunning_keeps k t t' :
  State.MarkRunning k t = Some t' ->
  State.in_flight (State.phase (State.Query key t'))
  = State.in_flight (State.phase (State.Query key t)).
Proof.
  unfold State.MarkRunning. intros H.
  destruct (State.phase (State.Query k t)) eqn:E; try discriminate.
  injection H as <-.
  destruct (decide (k = key)) as [->|Hne].
  - by rewrite Query_insert_eq, E.
  - by rewrite Query_insert_ne.
Qed.

Lemma MarkSucceeded_other k a t t' :
  k <> key -> State.MarkSucceeded k a t = Some t' ->
  State.Query key t' = State.Query key t.
Proof.
  unfold State.MarkSucceeded. intros Hne H.
  destruct (State.phase (State.Query k t)); try discriminate.
  injection H as <-. by apply Query_insert_ne.
Qed.

Lemma MarkFailed_other k e t t' :
  k <> key -> State.MarkFailed k e t = Some t' ->
  State.Query key t' = State.Query key t.
Proof.
  unfold State.MarkFailed. intros Hne H.
  destruct (State.in_flight _); try discriminate.
  injection H as <-. by apply Query_insert_ne.
Qed.

Lemma outcomes_for_cons_eq r rs :
  Service.outcomes_for key ((key, r) :: rs) = r :: Service.outcomes_for key rs.
Proof.
  unfold Service.outcomes_for. rewrite filter_cons_True by reflexivity. reflexivity.
Qed.

Lemma outcomes_for_cons_ne k r rs :
  k <> key ->
  Service.outcomes_for key ((k, r) :: rs) = Service.outcomes_for key rs.
Proof.
  intros H. unfold Service.outcomes_for. by rewrite filter_cons_False.
Qed.

(** While an operation is in flight, every call is rejected. *)
Lemma run_in_flight sched : forall t rs t',
  State.in_flight (State.phase (State.Query key t)) = true ->
  no_finish sched = true ->
  Service.run registered sched t = Some (rs, t') ->
  Service.outcomes_for key rs = repeat Service.Busy (n_calls sched).
Proof.
  induction sched as [|a sched IH]; intros t rs t' Hin Hnf Hrun.
  - injection Hrun as <- <-. reflexivity.
  - cbn in Hnf. apply andb_prop in Hnf as [Ha Hnf].
    destruct a as [k|k|k art|k err]; cbn in Hrun.
    + destruct (Service.CreateBackup registered k t) as [r t1] eqn:E.
      destruct (Service.run registered sched t1) as [[rs1 t2]|] eqn:R; [|discriminate].
      injection Hrun as <- <-.
      destruct (decide (k = key)) as [->|Hne].
      * rewrite CreateBackup_busy in E by exact Hin. injection E as <- <-.
        rewrite outcomes_for_cons_eq.
        unfold n_calls. cbn. rewrite bool_decide_eq_true_2 by reflexivity. cbn.
        f_equal. exact (IH t rs1 t2 Hin Hnf R).
      * rewrite outcomes_for_cons_ne by exact Hne.
        unfold n_calls. cbn. rewrite bool_decide_eq_false_2 by exact Hne.
        apply (IH t1 rs1 t2); [|exact Hnf|exact R].
        pose proof (CreateBackup_other k t Hne) as Q. rewrite E in Q. cbn in Q.
        by rewrite Q.
    + destruct (State.MarkRunning k t) as [t1|] eqn:E; [|discriminate].
      apply (IH t1 rs t'); [|exact Hnf|exact Hrun].
      by rewrite (MarkRunning_keeps _ _ _ E).
    + destruct (State.MarkSucceeded k art t) as [t1|] eqn:E; [|discriminate].
      cbn in Ha. apply negb_true_iff, bool_decide_eq_false in Ha.
      apply (IH t1 rs t'); [|exact Hnf|exact Hrun].
      by rewrite (MarkSucceeded_other _ _ _ _ Ha E).
    + destruct (State.MarkFailed k err t) as [t1|] eqn:E; [|discriminate].
      cbn in Ha. apply negb_true_iff, bool_decide_eq_false in Ha.
      apply (IH t1 rs t'); [|exact Hnf|exact Hrun].
      by rewrite (MarkFailed_other _ _ _ _ Ha E).
Qed.

(** From a state with nothing in flight, the first call wins and the
    later ones are rejected. *)
Lemma run_free sched : forall t rs t',
  State.in_flight (State.phase (State.Query key t)) = false ->
  no_finish sched = true ->
  Service.run registered sched t = Some (rs, t') ->
  Service.outcomes_for key rs
  = match n_calls sched with
    | O => []
    | S n => Service.Accepted :: repeat Service.Busy n
    end.
Proof.
  induction sched as [|a sched IH]; intros t rs t' Hin Hnf Hrun.
  - injection Hrun as <- <-. reflexivity.
  - cbn in Hnf. apply andb_prop in Hnf as [Ha Hnf].
    destruct a as [k|k|k art|k err]; cbn in Hrun.
    + destruct (Service.CreateBackup registered k t) as [r t1] eqn:E.
      destruct (Service.run registered sched t1) as [[rs1 t2]|] eqn:R; [|discriminate].
      injection Hrun as <- <-.
      destruct (decide (k = key)) as [->|Hne].
      * destruct (CreateBackup_free t Hin) as [Hr Hq]. rewrite E in Hr, Hq.
        cbn in Hr, Hq. subst r. rewrite outcomes_for_cons_eq.
        unfold n_calls. cbn. rewrite bool_decide_eq_true_2 by reflexivity. cbn.
        f_equal. apply (run_in_flight sched t1 rs1 t2); [|exact Hnf|exact R].
        by rewrite Hq.
      * rewrite outcomes_for_cons_ne by exact Hne.
        unfold n_calls. cbn. rewrite bool_decide_eq_false_2 by exact Hne.
        apply (IH t1 rs1 t2); [|exact Hnf|exact R].
        pose proof (CreateBackup_other k t Hne) as Q. rewrite E in Q. cbn in Q.
        by rewrite Q.
    + destruct (State.MarkRunning k t) as [t1|] eqn:E; [|discriminate].
      apply (IH t1 rs t'); [|exact Hnf|exact Hrun].
      by rewrite (MarkRunning_keeps _ _ _ E).
    + destruct (State.MarkSucceeded k art t) as [t1|] eqn:E; [|discriminate].
      cbn in Ha. apply negb_true_iff, bool_decide_eq_false in Ha.
      apply (IH t1 rs t'); [|exact Hnf|exact Hrun].
      by rewrite (MarkSucceeded_other _ _ _ _ Ha E).
    + destruct (State.MarkFailed k err t) as [t1|] eqn:E; [|discriminate].
      cbn in Ha. apply negb_true_iff, bool_decide_eq_false in Ha.
      apply (IH t1 rs t'); [|exact Hnf|exact Hrun].
      by rewrite (MarkFailed_other _ _ _ _ Ha E).
Qed.

(** Once the operation in flight has reached a terminal phase, the key is
    free again. *)
Lemma finished_is_free k x t t' :
  (State.MarkSucceeded k x t = Some t' \/ State.MarkFailed k x t = Some t') ->
  State.in_flight (State.phase (State.Query k t')) = false.
Proof.
  unfold State.MarkSucceeded, State.MarkFailed, State.Query. intros [H|H].
  - destruct (State.phase _); try discriminate. injection H as <-.
    by rewrite lookup_insert_eq.
  - destruct (State.in_flight _); try discriminate. injection H as <-.
    by rewrite lookup_insert_eq.
Qed.

End SingleFlight.

(** C3.  Take any interleaving of callers and backup tasks in which the
    service [key], free at the start, sees no terminal transition: of the
    calls made for [key], the first is accepted and every other one receives
    the busy error.  And after any operation has reached a terminal phase,
    the next call for its key is accepted again. *)
Theorem single_flight :
  forall registered key sched t rs t' n,
    registered (fst key) = true ->
    State.in_flight (State.phase (State.Query key t)) = false ->
    Service.no_finish key sched = true ->
    Service.run registered sched t = Some (rs, t') ->
    Service.n_calls key sched = S n ->
    Service.outcomes_for key rs = Service.Accepted :: repeat Service.Busy n
    /\ forall x t1 t2,
         State.MarkSucceeded key x t1 = Some t2 \/ State.MarkFailed key x t1 = Some t2 ->
         fst (Service.CreateBackup registered key t2) = Service.Accepted.
Proof.
  intros registered key sched t rs t' n Hreg Hfree Hnf Hrun Hn. split.
  - rewrite (run_free registered key Hreg sched t rs t' Hfree Hnf Hrun).
    by rewrite Hn.
  - intros x t1 t2 H.
    apply (CreateBackup_free registered key Hreg).
    exact (finished_is_free key x t1 t2 H).
Qed.

(** The sample schedule: three calls for "orders", of which the first is
    accepted. *)
Lemma single_flight_witness :
  Service.outcomes_for Sample.key
    [(Sample.key, Service.Accepted); (Sample.key, Service.Busy);
     (Sample.other, Service.Accepted); (Sample.key, Service.Busy)]
  = [Service.Accepted; Service.Busy; Service.Busy].
Proof.
  refine (proj1 (single_flight (fun _ => true) Sample.key Sample.schedule ∅
                   _ (snd (default ([], ∅) (Service.run (fun _ => true) Sample.schedule ∅)))
                   2%nat _ _ _ _ _));
    vm_compute; reflexivity.
Defined.

(** A backup of "orders" is answered 202 whether the job succeeds or
    fails. *)
Lemma CreateBackup_202_witness :
  fst (Api.serveCreateBackup Sample.IsValidServiceType Sample.GetService
         Sample.job_ok (Sample.post "postgres" "orders") Sample.world)
  = {| Api.status := 202; Api.body := Api.BodyAPIService Sample.orders |}
  /\ fst (Api.serveCreateBackup Sample.IsValidServiceType Sample.GetService
            Sample.job_fails (Sample.post "postgres" "orders") Sample.world)
     = {| Api.status := 202; Api.body := Api.BodyAPIService Sample.orders |}.
Proof.
  assert (H : Go.QueryUnescape (Api.service_name (Sample.post "postgres" "orders"))
              = inl "orders") by reflexivity.
  assert (Hv : Sample.IsValidServiceType
                 (Api.service_type (Sample.post "postgres" "orders")) = true)
    by reflexivity.
  assert (Hs : Config.Name (Sample.GetService
                 (Api.service_type (Sample.post "postgres" "orders")) "orders") <> "")
    by (vm_compute; discriminate).
  pose proof (CreateBackup_202_independent_of_job Sample.IsValidServiceType
                Sample.GetService (Sample.post "postgres" "orders") "orders"
                Sample.world H Hv Hs) as T.
  cbv zeta in T. destruct T as (_ & _ & _ & _ & _ & T).
  split; [exact (T Sample.job_ok) | exact (T Sample.job_fails)].
Defined.

(** The type "mssql" is answered 400, the unknown postgres service
    "nosuch-db" 404. *)
Lemma CreateBackup_validates_first_witness :
  Api.status (fst (Api.CreateBackup Sample.IsValidServiceType Sample.GetService
                     (Sample.post "mssql" "orders") Sample.world)) = 400
  /\ Api.status (fst (Api.CreateBackup Sample.IsValidServiceType Sample.GetService
                        (Sample.post "postgres" "nosuch%2Ddb") Sample.world)) = 404.
Proof.
  split.
  - exact (proj1 (proj1 (CreateBackup_validates_first Sample.IsValidServiceType
                           Sample.GetService (Sample.post "mssql" "orders") Sample.world)
                    eq_refl)).
  - exact (proj1 (proj2 (CreateBackup_validates_first Sample.IsValidServiceType
                           Sample.GetService (Sample.post "postgres" "nosuch%2Ddb")
                           Sample.world)
                    "nosuch-db" eq_refl eq_refl eq_refl)).
Defined.

(** Deleting from an empty catalog. *)
Lemma DeleteBackup_not_found_witness :
  Api.DeleteBackup Service.DeleteBackup Sample.delete_request Sample.world
  = ({| Api.status := 500;
        Api.body := Api.BodyErrorText
                      (Effects.NotFoundError "postgres/orders/orders_20200101.gz") |},
     Sample.world).
Proof.
  exact (proj1 (proj2 (DeleteBackup_not_found Sample.delete_request "orders"
                         "orders_20200101.gz" Sample.world
                         eq_refl eq_refl eq_refl eq_refl))).
Defined.


(** ** Configuration layers *)

Section ConfigOverlay.

Import Config.

Lemma nonempty_true s : s <> "" -> nonempty s = true.
Proof. destruct s; [congruence|]. intros _. reflexivity. Qed.

Lemma nonempty_list_true {A} (l : list A) : l <> [] -> nonempty_list l = true.
Proof. destruct l; [congruence|]. intros _. reflexivity. Qed.

Lemma positive_true n : 0 < n -> (0 <? n) = true.
Proof. apply Z.ltb_lt. Qed.

Lemma positive_nonzero n : 0 < n -> (n =? 0) = false.
Proof. intros H. apply Z.eqb_neq. lia. Qed.

Lemma not_positive_false n : n <= 0 -> (0 <? n) = false.
Proof. intros H. apply Z.ltb_ge. exact H. Qed.

Lemma long_true d : 10 ^ 9 < d -> longer_than_a_second d = true.
Proof. apply Z.ltb_lt. Qed.

Lemma long_false d : d <= 10 ^ 9 -> longer_than_a_second d = false.
Proof. intros H. apply Z.ltb_ge. exact H. Qed.

Lemma is_empty_false s : s <> "" -> is_empty s = false.
Proof. destruct s; [congruence|reflexivity]. Qed.

Lemma len_zero_false s : s <> "" -> (Go.len s =? 0) = false.
Proof. destruct s; [congruence|]. intros _. reflexivity. Qed.

(** Closes one clause of a statement about the merge: the hypothesis of
    the clause decides the guard. *)
Ltac by_guard :=
  intros;
  repeat match goal with
  | H : ?s <> "" |- _ =>
      rewrite ?(nonempty_true s H), ?(len_zero_false s H); clear H
  | H : ?l <> [] |- _ => rewrite ?(nonempty_list_true l H); clear H
  | H : 0 < ?n |- _ =>
      rewrite ?(positive_true n H), ?(positive_nonzero n H); clear H
  | H : ?n <= 0 |- _ => rewrite ?(not_positive_false n H); clear H
  | H : 10 ^ 9 < ?d |- _ => rewrite ?(long_true d H); clear H
  | H : ?d <= 10 ^ 9 |- _ => rewrite ?(long_false d H); clear H
  | H : _ = true |- _ => rewrite ?H; clear H
  | H : _ = "" |- _ => rewrite ?H; clear H
  | H : _ = [] |- _ => rewrite ?H; clear H
  end;
  try reflexivity;
  repeat match goal with
  | |- context [if ?b then _ else _] => destruct b
  end;
  try reflexivity.

Lemma mergeService_takes_env f e : service_takes_env e (mergeService f e).
Proof. unfold service_takes_env, mergeService; cbn. repeat split; by_guard. Qed.

Lemma mergeService_bools_stay f e : service_bools_stay f (mergeService f e).
Proof. unfold service_bools_stay, mergeService; cbn. repeat split; by_guard. Qed.

Lemma mergeService_zero_keeps f e : service_zero_keeps f e (mergeService f e).
Proof. unfold service_zero_keeps, mergeService; cbn. repeat split; by_guard. Qed.

Lemma mergeService_zero f : mergeService f zeroService = f.
Proof. destruct f as [? ? ? [] ? ? ? ? ? ? ? ? []]. reflexivity. Qed.

Lemma mergeSettings_takes_env f e : settings_take_env e (mergeSettings f e).
Proof. unfold settings_take_env, mergeSettings; cbn. repeat split; by_guard. Qed.

Lemma mergeSettings_bools_stay f e : settings_bools_stay f (mergeSettings f e).
Proof. unfold settings_bools_stay, mergeSettings; cbn. repeat split; by_guard. Qed.

Lemma mergeSettings_zero_keeps f e : settings_zero_keeps f e (mergeSettings f e).
Proof. unfold settings_zero_keeps, mergeSettings; cbn. repeat split; by_guard. Qed.

(** The loop over the services of the environment, entry by entry. *)
Lemma merge_loop_lookup (s e : gmap string Service) (name : string) :
  map_fold mergeStep s e !! name
  = match e !! name with
    | Some sc => Some (mergeService (default zeroService (s !! name)) sc)
    | None => s !! name
    end.
Proof.
  revert name.
  apply (map_fold_weak_ind
           (fun r (m : gmap string Service) =>
              forall name, r !! name
                = match m !! name with
                  | Some sc => Some (mergeService (default zeroService (s !! name)) sc)
                  | None => s !! name
                  end)).
  - intros name. by rewrite lookup_empty.
  - intros i x m r Hi IH name. unfold mergeStep.
    destruct (decide (i = name)) as [->|Hne].
    + rewrite !lookup_insert_eq. rewrite IH, Hi. reflexivity.
    + rewrite !lookup_insert_ne by exact Hne. apply IH.
Qed.

Lemma mergeServices_index s e m (name : string) :
  mergeServices s e = Go.Ok m ->
  Go.map_index zeroService m name
  = mergeService (Go.map_index zeroService s name) (Go.map_index zeroService e name).
Proof.
  unfold mergeServices. destruct e as [e|].
  - case_bool_decide as He.
    + intros [= <-]. subst e. cbn. rewrite lookup_empty. cbn.
      by rewrite mergeService_zero.
    + destruct s as [s|]; [|discriminate]. intros [= <-]. cbn.
      rewrite merge_loop_lookup.
      destruct (e !! name); cbn; [reflexivity|by rewrite mergeService_zero].
  - intros [= <-]. cbn. by rewrite mergeService_zero.
Qed.

(** What [overlay] returns when it returns. *)
Lemma overlay_Ok f e m :
  overlay f e = Go.Ok m ->
  exists s, mergeServices (Services f) (Services e) = Go.Ok s
            /\ m = withServices (mergeSettings f e) s.
Proof.
  unfold overlay. cbn.
  destruct (mergeServices (Services f) (Services e)) as [s| |] eqn:E; try discriminate.
  intros [= <-]. by exists s.
Qed.

Lemma overlay_service f e m name :
  overlay f e = Go.Ok m ->
  service_of m name = mergeService (service_of f name) (service_of e name).
Proof.
  intros H. destruct (overlay_Ok f e m H) as (s & Hs & ->).
  unfold service_of. cbn. by apply mergeServices_index.
Qed.

(** An environment configuration that sets nothing changes nothing. *)
Lemma overlay_zero f : overlay f zeroConfig = Go.Ok f.
Proof.
  destruct f as [? ? ? ? ? ? ? ? ? [[]] [] ? ?]. reflexivity.
Qed.

(** The overlay goes through whenever the file left a map of services. *)
Lemma overlay_total f e :
  Services f <> None -> exists m, overlay f e = Go.Ok m.
Proof.
  intros H. unfold overlay, mergeServices. cbn.
  destruct (Services e) as [es|]; [|eauto].
  case_bool_decide; [eauto|].
  destruct (Services f); [eauto|congruence].
Qed.

(** [new] with a configuration in the environment. *)
Lemma new_Ok i e c :
  BackmanConfig i = EnvLoaded e ->
  new i = Go.Ok c ->
  exists f m, loadFile (configFile i) = Go.Ok f
              /\ overlay f e = Go.Ok m /\ c = finish m i.
Proof.
  intros He. unfold new, loadEnv. rewrite He.
  destruct (loadFile (configFile i)) as [f| |]; try discriminate.
  destruct (overlay f e) as [m| |] eqn:E; try discriminate.
  intros [= <-]. by exists f, m.
Qed.

Lemma finish_bools_stay m i : settings_bools_stay m (finish m i).
Proof. unfold settings_bools_stay, finish; cbn. repeat split; by_guard. Qed.

(** C7, as stated, fails: the environment configuration sets a timeout of
    one second for "orders", the file sets thirty seconds, and the resolved
    configuration keeps the thirty seconds of the file. *)
Lemma env_timeout_of_one_second_ignored :
  new Sample.inputs = Go.Ok Sample.resolved
  /\ ~ (Timeout (service_of Sample.env_config "orders") <> 0 ->
        Timeout (service_of Sample.resolved "orders")
        = Timeout (service_of Sample.env_config "orders")).
Proof.
  split; [vm_compute; reflexivity|].
  intros H. assert (E : Timeout (service_of Sample.env_config "orders") <> 0)
    by (vm_compute; discriminate).
  specialize (H E). vm_compute in H. discriminate.
Qed.

(** C7, amended.  The environment configuration is laid over the result of
    reading the file: every setting whose environment value passes the guard
    of the merge (a non-empty string or list, a positive number, a true
    boolean, a per-service timeout above one second) has the environment
    value in the resolved configuration, whatever the file says; for the
    username, the password, the S3 encryption key and the Teams webhook and
    events, a non-empty dedicated environment variable comes last and
    replaces that value. *)
Theorem env_config_wins :
  forall i e c,
    BackmanConfig i = EnvLoaded e ->
    new i = Go.Ok c ->
    settings_take_env e c
    /\ dedicated_take_env i e c
    /\ forall name, service_takes_env (service_of e name) (service_of c name).
Proof.
  intros i e c He Hc.
  destruct (new_Ok i e c He Hc) as (f & m & Hf & Hm & ->).
  destruct (overlay_Ok f e m Hm) as (s & Hs & ->).
  split; [|split].
  - unfold settings_take_env, finish, mergeSettings; cbn. repeat split; by_guard.
  - unfold dedicated_take_env, or_variable, finish, mergeSettings; cbn.
    repeat split; intros H;
      rewrite ?(nonempty_true _ H), ?(nonempty_list_true _ H);
      destruct (is_empty _); reflexivity.
  - intros name.
    change (service_of (finish (withServices (mergeSettings f e) s) i) name)
      with (service_of (withServices (mergeSettings f e) s) name).
    rewrite (overlay_service f e _ name Hm).
    apply mergeService_takes_env.
Qed.

(** The sample inputs: schedule, log level and user name come from the
    environment. *)
Lemma env_config_wins_witness :
  Schedule (service_of Sample.resolved "orders") = "0 0 4 * * *"
  /\ LogLevel Sample.resolved = "warn"
  /\ Username Sample.resolved = "operator".
Proof.
  pose proof (env_config_wins Sample.inputs Sample.env_config Sample.resolved
                eq_refl ltac:(vm_compute; reflexivity)) as (Hs & Hd & Hsvc).
  split; [|split].
  - apply (proj1 (Hsvc "orders")). vm_compute. discriminate.
  - apply (proj1 (proj2 Hs)). vm_compute. discriminate.
  - apply (proj1 Hd). vm_compute. discriminate.
Defined.

(** C10.  The overlay never resets a setting: a boolean option that is
    true after reading the file is true after the overlay and in the
    resolved configuration, whatever the environment says; an empty string
    or list and a number that is not positive in the environment leave the
    value of the file in place; and the per-service timeout of the
    environment replaces the one of the file only when it exceeds one
    second. *)
Theorem overlay_never_resets :
  forall f e m,
    overlay f e = Go.Ok m ->
    settings_bools_stay f m
    /\ (forall i, settings_bools_stay f (finish m i))
    /\ settings_zero_keeps f e m
    /\ forall name,
         let fs := service_of f name in
         let es := service_of e name in
         let ms := service_of m name in
         service_bools_stay fs ms
         /\ service_zero_keeps fs es ms
         /\ (Timeout es <= 10 ^ 9 -> Timeout ms = Timeout fs)
         /\ (Timeout ms <> Timeout fs -> 10 ^ 9 < Timeout es /\ Timeout ms = Timeout es).
Proof.
  intros f e m Hm.
  destruct (overlay_Ok f e m Hm) as (s & Hs & Em).
  assert (Hb : settings_bools_stay f m).
  { subst m. unfold settings_bools_stay, mergeSettings; cbn. repeat split; by_guard. }
  split; [exact Hb|]. split; [|split].
  - intros i. unfold settings_bools_stay in *. cbn.
    destruct Hb as (b1 & b2 & b3 & b4 & b5 & b6 & b7 & b8).
    repeat split; assumption.
  - subst m. unfold settings_zero_keeps, mergeSettings; cbn. repeat split; by_guard.
  - intros name fs es ms. subst fs es ms.
    rewrite (overlay_service f e m name Hm).
    split; [apply mergeService_bools_stay|].
    split; [apply mergeService_zero_keeps|].
    unfold mergeService; cbn. split.
    + intros H. by rewrite (long_false _ H).
    + intros H. destruct (longer_than_a_second _) eqn:E; [|congruence].
      split; [|reflexivity]. by apply Z.ltb_lt.
Qed.

(** The sample inputs: the environment says false, one second and nothing
    where the file says true, thirty seconds and a value. *)
Lemma overlay_never_resets_witness :
  DisableWeb Sample.resolved = true
  /\ DirectS3 (service_of Sample.resolved "orders") = true
  /\ Timeout (service_of Sample.resolved "orders") = 30 * 10 ^ 9.
Proof.
  pose proof (overlay_never_resets Sample.file_config Sample.env_config Sample.resolved
                ltac:(vm_compute; reflexivity)) as (Hb & _ & _ & Hsvc).
  specialize (Hsvc "orders"). cbv zeta in Hsvc.
  destruct Hsvc as (Hsb & _ & Ht & _).
  split; [|split].
  - apply (proj1 (proj2 Hb)). reflexivity.
  - apply (proj1 Hsb). reflexivity.
  - rewrite Ht; [reflexivity|]. vm_compute. discriminate.
Defined.

(** [new] ends with [finish], whatever was loaded. *)
Lemma new_finish i c :
  new i = Go.Ok c ->
  exists f m, loadFile (configFile i) = Go.Ok f
              /\ loadEnv f (BackmanConfig i) = Go.Ok m /\ c = finish m i.
Proof.
  unfold new. destruct (loadFile (configFile i)) as [f| |]; try discriminate.
  destruct (loadEnv f (BackmanConfig i)) as [m| |] eqn:E; try discriminate.
  intros [= <-]. by exists f, m.
Qed.

(** The dedicated environment variables come last: a non-empty one is the
    resolved value of its setting, whatever the file and the environment
    configuration say. *)
Theorem dedicated_variables_win :
  forall i c,
    new i = Go.Ok c ->
    (BackmanUsername i <> "" -> Username c = BackmanUsername i)
    /\ (BackmanPassword i <> "" -> Password c = BackmanPassword i)
    /\ (BackmanEncryptionKey i <> "" ->
        S3_EncryptionKey (S3 c) = BackmanEncryptionKey i)
    /\ (BackmanTeamsWebhook i <> "" ->
        Webhook (Teams (Notifications c)) = BackmanTeamsWebhook i)
    /\ (BackmanTeamsEvents i <> "" ->
        Events (Teams (Notifications c)) = Go.Split_comma (BackmanTeamsEvents i)).
Proof.
  intros i c Hc. destruct (new_finish i c Hc) as (f & m & _ & _ & ->).
  unfold finish; cbn.
  repeat split; intros H; by rewrite (is_empty_false _ H).
Qed.

Lemma dedicated_variables_win_witness :
  Go.Ok (finish Sample.resolved Sample.inputs_with_password) =
    new Sample.inputs_with_password
  /\ Password (finish Sample.resolved Sample.inputs_with_password) = "from-variable".
Proof.
  split; [vm_compute; reflexivity|].
  apply (proj1 (proj2 (dedicated_variables_win Sample.inputs_with_password
                         (finish Sample.resolved Sample.inputs_with_password)
                         ltac:(vm_compute; reflexivity)))).
  vm_compute. discriminate.
Defined.

(** The defaults: the resolved log level is never empty, and it is "info"
    and the port is the number in the port variable when neither the file
    nor the environment configuration is there. *)
Theorem new_defaults :
  forall i c,
    new i = Go.Ok c ->
    LogLevel c <> ""
    /\ (configFile i = NoFile -> BackmanConfig i = EnvEmpty ->
        LogLevel c = "info" /\ Port c = Go.Atoi_value (BackmanPort i)
        /\ Services c = Some ∅).
Proof.
  intros i c Hc. destruct (new_finish i c Hc) as (f & m & Hf & Hm & ->). split.
  - unfold finish; cbn. destruct (LogLevel m) as [|a s]; cbn; discriminate.
  - intros Hfile Henv. rewrite Hfile in Hf. rewrite Henv in Hm.
    cbn in Hf, Hm. injection Hf as <-. injection Hm as <-.
    repeat split.
Qed.

Lemma new_defaults_witness :
  Port (finish initialConfig Sample.inputs_bare) = 9000.
Proof.
  exact (proj1 (proj2 (proj2 (new_defaults Sample.inputs_bare
                                (finish initialConfig Sample.inputs_bare) eq_refl)
                         eq_refl eq_refl))).
Defined.

(** The overlay either goes through or panics on the assignment to a nil
    map; it panics exactly when the environment configuration names a
    service and the configuration read from the file has no map of
    services. *)
Theorem overlay_panics_on_nil_map :
  forall f e,
    ((exists m, overlay f e = Go.Ok m)
     \/ overlay f e = Go.Panic "assignment to entry in nil map")
    /\ (overlay f e = Go.Panic "assignment to entry in nil map"
        <-> Services f = None
            /\ exists es, Services e = Some es /\ es <> ∅).
Proof.
  intros f e. unfold overlay, mergeServices. cbn.
  destruct (Services e) as [es|].
  - case_bool_decide as Hes.
    + split; [eauto|]. split; [discriminate|].
      intros (_ & es' & [= <-] & Hne). contradiction.
    + destruct (Services f) as [fs|].
      * split; [eauto|]. split; [discriminate|]. intros [[=] _].
      * split; [auto|]. split; [|reflexivity]. intros _. eauto.
  - split; [eauto|]. split; [discriminate|]. intros (_ & es & [=] & _).
Qed.

End ConfigOverlay.


(** ** UI: error page and basic authentication *)

(** C9.  The error page never carries service names: whenever
    [ErrorHandler] renders a page, the fields [Services] and [AllServices]
    of that page are nil; and two handlers that differ only in their
    services produce the same outcome, page and log included, for the same
    error at the same time. *)
Theorem ErrorHandler_hides_services :
  forall (h1 h2 : Ui.Handler) (err : Effects.error) (now : Z) (w : Effects.World),
    Ui.ErrorHandler h1 err now w = Ui.ErrorHandler h2 err now w
    /\ forall r w', Ui.ErrorHandler h1 err now w = (Go.Ok r, w') ->
         Ui.Page_Services (Ui.render_page r) = None
         /\ Ui.Page_AllServices (Ui.render_page r) = None.
Proof.
  intros h1 h2 err now w. split.
  - destruct err as [e|m|code [s|]|k|m]; reflexivity.
  - intros r w' H. destruct err as [e|m|code [s|]|k|m]; cbn in H;
      unfold Ui.Render in H;
      try destruct (Ui.valid_status code);
      try discriminate; injection H as <- <-; split; reflexivity.
Qed.

Section ConstantTime.

Local Open Scope Z_scope.

Lemma byte_val_is_byte c : Go.is_byte (Go.byte_val c).
Proof.
  unfold Go.is_byte, Go.byte_val. pose proof (N_ascii_bounded c). lia.
Qed.

Lemma byte_val_inj a b : Go.byte_val a = Go.byte_val b -> a = b.
Proof.
  unfold Go.byte_val. intros H. apply N2Z.inj in H.
  rewrite <- (ascii_N_embedding a), <- (ascii_N_embedding b). by rewrite H.
Qed.

Lemma log2_byte v : Go.is_byte v -> Z.log2 v < 8.
Proof.
  intros [H0 H1]. destruct (Z.eq_dec v 0) as [->|Hne]; [reflexivity|].
  apply Z.log2_lt_pow2; lia.
Qed.

Lemma byte_of_log2 v : 0 <= v -> Z.log2 v < 8 -> Go.is_byte v.
Proof.
  intros H0 Hl. split; [exact H0|].
  destruct (Z.eq_dec v 0) as [->|Hne]; [lia|].
  apply (Z.log2_lt_pow2 v 8); lia.
Qed.

Lemma lor_is_byte a b : Go.is_byte a -> Go.is_byte b -> Go.is_byte (Z.lor a b).
Proof.
  intros Ha Hb. apply byte_of_log2.
  - apply Z.lor_nonneg. unfold Go.is_byte in *. lia.
  - rewrite Z.log2_lor by (unfold Go.is_byte in *; lia).
    pose proof (log2_byte a Ha). pose proof (log2_byte b Hb). lia.
Qed.

Lemma lxor_is_byte a b : Go.is_byte a -> Go.is_byte b -> Go.is_byte (Z.lxor a b).
Proof.
  intros Ha Hb. apply byte_of_log2.
  - apply Z.lxor_nonneg. unfold Go.is_byte in *. lia.
  - pose proof (Z.log2_lxor a b ltac:(unfold Go.is_byte in *; lia)
                  ltac:(unfold Go.is_byte in *; lia)).
    pose proof (log2_byte a Ha). pose proof (log2_byte b Hb). lia.
Qed.

(** [ConstantTimeByteEq(v, 0)] on a byte. *)
Lemma ConstantTimeByteEq_zero v :
  Go.is_byte v -> Go.ConstantTimeByteEq v 0 = if v =? 0 then 1 else 0.
Proof.
  intros [H0 H1]. unfold Go.ConstantTimeByteEq. rewrite Z.lxor_0_r.
  destruct (v =? 0) eqn:E.
  - apply Z.eqb_eq in E. subst v. reflexivity.
  - apply Z.eqb_neq in E. rewrite Z.mod_small by lia.
    rewrite Z.shiftr_div_pow2 by lia. apply Z.div_small. lia.
Qed.

(** The loop accumulates a byte that is zero exactly when nothing differed,
    and runs once per byte whatever the bytes are. *)
Lemma ctc_loop_spec x : forall y v n,
  length x = length y -> Go.is_byte v ->
  Go.is_byte (fst (Go.ctc_loop x y v n))
  /\ (fst (Go.ctc_loop x y v n) = 0 <-> v = 0 /\ x = y)
  /\ snd (Go.ctc_loop x y v n) = (n + length x)%nat.
Proof.
  induction x as [|a x IH]; intros [|b y] v n Hlen Hv; try discriminate.
  - cbn. repeat split; try tauto; try apply Hv. lia.
  - cbn in Hlen. injection Hlen as Hlen. cbn [Go.ctc_loop].
    pose proof (lxor_is_byte _ _ (byte_val_is_byte a) (byte_val_is_byte b)) as Hx.
    destruct (IH y (Z.lor v (Z.lxor (Go.byte_val a) (Go.byte_val b))) (S n) Hlen
                (lor_is_byte _ _ Hv Hx)) as (Hb & Hz & Hn).
    split; [exact Hb|]. split.
    + rewrite Hz, Z.lor_eq_0_iff, Z.lxor_eq_0_iff. split.
      * intros [[-> Hab] ->]. apply byte_val_inj in Hab. by subst.
      * intros [-> [= -> ->]]. auto.
    + rewrite Hn. cbn. lia.
Qed.

Lemma ConstantTimeCompare_run_spec x y :
  Go.ConstantTimeCompare_run x y
  = (if decide (x = y) then 1 else 0,
     if Nat.eqb (length x) (length y) then length x else O).
Proof.
  unfold Go.ConstantTimeCompare_run.
  destruct (Nat.eqb (length x) (length y)) eqn:E; cbn [negb].
  - apply Nat.eqb_eq in E.
    destruct (ctc_loop_spec x y 0 O E ltac:(unfold Go.is_byte; lia)) as (Hb & Hz & Hn).
    destruct (Go.ctc_loop x y 0 O) as [v n]. cbn in Hb, Hz, Hn. subst n.
    rewrite (ConstantTimeByteEq_zero v Hb). f_equal.
    destruct (decide (x = y)) as [->|Hne].
    + assert (v = 0) as -> by (apply Hz; auto). reflexivity.
    + destruct (v =? 0) eqn:Ev; [|reflexivity].
      apply Z.eqb_eq in Ev. apply Hz in Ev. tauto.
  - apply Nat.eqb_neq in E. destruct (decide (x = y)) as [->|Hne]; [lia|reflexivity].
Qed.

Lemma ConstantTimeCompare_eq x y : Go.ConstantTimeCompare x y = 1 <-> x = y.
Proof.
  unfold Go.ConstantTimeCompare. rewrite ConstantTimeCompare_run_spec. cbn.
  destruct (decide (x = y)); split; intros; done.
Qed.

Lemma bytes_inj u v : Go.bytes u = Go.bytes v -> u = v.
Proof.
  unfold Go.bytes. intros H.
  rewrite <- (string_of_list_ascii_of_string u), <- (string_of_list_ascii_of_string v).
  by rewrite H.
Qed.

Lemma bytes_length u : length (Go.bytes u) = String.length u.
Proof.
  unfold Go.bytes. induction u as [|c u IH]; cbn; [reflexivity|]. by rewrite IH.
Qed.

(** The work of one comparison: the common length, or nothing when the
    lengths differ. *)
Lemma BasicAuth_run_spec username password u p :
  Ui.BasicAuth_run username password u p
  = (bool_decide (u = username /\ p = password),
     ((if Nat.eqb (String.length u) (String.length username)
       then String.length u else O)
      + (if decide (u = username)
         then (if Nat.eqb (String.length p) (String.length password)
               then String.length p else O)
         else O))%nat).
Proof.
  unfold Ui.BasicAuth_run. rewrite !ConstantTimeCompare_run_spec, !bytes_length.
  destruct (decide (u = username)) as [->|Hu].
  - rewrite (decide_True (P := Go.bytes username = Go.bytes username)) by reflexivity.
    cbn [Z.eqb Pos.eqb].
    destruct (decide (p = password)) as [->|Hp].
    + rewrite (decide_True (P := Go.bytes password = Go.bytes password)) by reflexivity.
      cbn [Z.eqb Pos.eqb]. by rewrite bool_decide_eq_true_2.
    + rewrite (decide_False (P := Go.bytes p = Go.bytes password))
        by (intros H; apply Hp, bytes_inj, H).
      cbn [Z.eqb]. rewrite bool_decide_eq_false_2 by tauto. reflexivity.
  - rewrite (decide_False (P := Go.bytes u = Go.bytes username))
      by (intros H; apply Hu, bytes_inj, H).
    cbn [Z.eqb]. rewrite bool_decide_eq_false_2 by tauto. f_equal. lia.
Qed.

End ConstantTime.

(** C8, as stated, fails: against the configured pair "admin" and
    "s3cr3t!!", the supplied pairs "admin" with "wrong-pw" and "admiX" with
    "wrong-pw" have the same lengths and are both rejected; they differ only
    in where the first wrong byte stands, and the first costs thirteen byte
    comparisons, the second five. *)
Lemma BasicAuth_cost_differs :
  Ui.BasicAuth "admin" "s3cr3t!!" "admin" "wrong-pw" = false
  /\ Ui.BasicAuth "admin" "s3cr3t!!" "admiX" "wrong-pw" = false
  /\ ~ (Ui.BasicAuth_cost "admin" "s3cr3t!!" "admin" "wrong-pw"
        = Ui.BasicAuth_cost "admin" "s3cr3t!!" "admiX" "wrong-pw").
Proof. repeat split. vm_compute. discriminate. Qed.

(** C8, amended.  The validator grants access exactly when the supplied
    user name and password both equal the configured ones.  Each of the two
    comparisons does work that depends on the lengths only (one step per
    byte when the lengths agree, none otherwise), and the password is
    compared only when the user name matched: the work of the check is
    fixed by the lengths of the supplied credentials and by whether the user
    name matched, not by the position of the first differing byte within
    the user name or within the password. *)
Theorem BasicAuth_exact_and_cost :
  forall username password u p : string,
    (Ui.BasicAuth username password u p = true <-> u = username /\ p = password)
    /\ Ui.BasicAuth_cost username password u p
       = ((if Nat.eqb (String.length u) (String.length username)
           then String.length u else O)
          + (if decide (u = username)
             then (if Nat.eqb (String.length p) (String.length password)
                   then String.length p else O)
             else O))%nat
    /\ forall u' p' : string,
         String.length u' = String.length u ->
         String.length p' = String.length p ->
         (u' = username <-> u = username) ->
         Ui.BasicAuth_cost username password u' p'
         = Ui.BasicAuth_cost username password u p.
Proof.
  intros username password u p.
  unfold Ui.BasicAuth, Ui.BasicAuth_cost. split; [|split].
  - rewrite BasicAuth_run_spec. cbn [fst]. apply bool_decide_eq_true.
  - rewrite BasicAuth_run_spec. reflexivity.
  - intros u' p' Hu Hp Hiff. rewrite !BasicAuth_run_spec. cbn [snd].
    rewrite Hu, Hp.
    destruct (decide (u' = username)) as [E|E], (decide (u = username)) as [E'|E'];
      tauto || reflexivity.
Qed.


(** ** More on the configuration layers *)

Section ConfigMore.

Import Config.

Lemma if_twice {A} (b : bool) (x y : A) :
  (if b then x else if b then x else y) = (if b then x else y).
Proof. by destruct b. Qed.

Lemma mergeService_twice f e : mergeService (mergeService f e) e = mergeService f e.
Proof. unfold mergeService; cbn. by rewrite !if_twice. Qed.

Lemma mergeSettings_twice f e s :
  mergeSettings (withServices (mergeSettings f e) s) e
  = withServices (mergeSettings f e) s.
Proof. unfold mergeSettings, withServices; cbn. by rewrite !if_twice. Qed.

Lemma merge_loop_twice (s e : gmap string Service) :
  map_fold mergeStep (map_fold mergeStep s e) e = map_fold mergeStep s e.
Proof.
  apply map_eq. intros name. rewrite !merge_loop_lookup.
  destruct (e !! name) as [sc|]; [|reflexivity].
  cbn. by rewrite mergeService_twice.
Qed.

Lemma mergeServices_twice s e m :
  mergeServices s e = Go.Ok m -> mergeServices m e = Go.Ok m.
Proof.
  unfold mergeServices. destruct e as [e|]; [|by intros [= <-]].
  case_bool_decide; [by intros [= <-]|].
  destruct s as [s|]; [|discriminate]. intros [= <-].
  by rewrite merge_loop_twice.
Qed.

(** Laying the same environment configuration over the result once more
    changes nothing. *)
Theorem overlay_idempotent :
  forall f e m, overlay f e = Go.Ok m -> overlay m e = Go.Ok m.
Proof.
  intros f e m Hm. destruct (overlay_Ok f e m Hm) as (s & Hs & ->).
  unfold overlay. rewrite mergeSettings_twice.
  change (Services (withServices (mergeSettings f e) s)) with s.
  rewrite (mergeServices_twice _ _ _ Hs). reflexivity.
Qed.

Lemma overlay_idempotent_witness :
  overlay Sample.resolved Sample.env_config = Go.Ok Sample.resolved.
Proof.
  exact (overlay_idempotent Sample.file_config Sample.env_config Sample.resolved
           ltac:(vm_compute; reflexivity)).
Defined.

Lemma merge_loop_dom (s e : gmap string Service) :
  dom (map_fold mergeStep s e) = dom s ∪ dom e.
Proof.
  apply set_eq. intros name.
  rewrite elem_of_union, !elem_of_dom, merge_loop_lookup.
  destruct (e !! name) as [sc|]; cbn.
  - split; [intros _; right; eauto | eauto].
  - split; [by left | intros [H|[x H]]; [exact H | discriminate]].
Qed.

(** The overlay drops no service and invents none: the merged
    configuration has exactly the services that the file or the environment
    names. *)
Theorem overlay_service_names :
  forall f e m,
    overlay f e = Go.Ok m ->
    Package.names (Services m)
    = Package.names (Services f) ∪ Package.names (Services e).
Proof.
  intros f e m Hm. destruct (overlay_Ok f e m Hm) as (s & Hs & ->).
  change (Services (withServices (mergeSettings f e) s)) with s.
  revert Hs. unfold mergeServices.
  destruct (Services e) as [es|]; cbn.
  - case_bool_decide as He.
    + intros [= <-]. subst es. rewrite dom_empty_L. by rewrite (right_id_L ∅ (∪)).
    + destruct (Services f) as [fs|]; [|discriminate]. intros [= <-]. cbn.
      apply merge_loop_dom.
  - intros [= <-]. by rewrite (right_id_L ∅ (∪)).
Qed.

Lemma overlay_service_names_witness :
  Package.names (Services Sample.resolved)
  = Package.names (Services Sample.file_config)
    ∪ Package.names (Services Sample.env_config).
Proof.
  exact (overlay_service_names Sample.file_config Sample.env_config Sample.resolved
           ltac:(vm_compute; reflexivity)).
Defined.

Lemma mergeInOrder_lookup (l : list (string * Service)) :
  forall (s : gmap string Service) (name : string),
    NoDup (l.*1) ->
    Package.mergeInOrder l s !! name
    = match (list_to_map l : gmap string Service) !! name with
      | Some sc => Some (mergeService (default zeroService (s !! name)) sc)
      | None => s !! name
      end.
Proof.
  induction l as [|[k v] l IH]; intros s name Hnd.
  - cbn. by rewrite lookup_empty.
  - cbn in Hnd. apply NoDup_cons in Hnd as [Hk Hnd].
    change (Package.mergeInOrder ((k, v) :: l) s)
      with (Package.mergeInOrder l (mergeStep k v s)).
    rewrite (IH _ name Hnd). cbn [list_to_map foldr uncurry].
    unfold mergeStep. destruct (decide (k = name)) as [->|Hne].
    + rewrite !lookup_insert_eq.
      assert ((list_to_map l : gmap string Service) !! name = None) as ->
        by (by apply not_elem_of_list_to_map_1).
      reflexivity.
    + by rewrite !lookup_insert_ne.
Qed.

(** The order in which the loop visits the services of the environment
    does not matter: every visiting order gives the same merged map. *)
Theorem merge_order_irrelevant :
  forall (s e : gmap string Service) (visited : list (string * Service)),
    visited ≡ₚ map_to_list e ->
    Package.mergeInOrder visited s = map_fold mergeStep s e.
Proof.
  intros s e visited Hp. apply map_eq. intros name.
  assert (Hnd : NoDup (visited.*1)).
  { rewrite Hp. apply NoDup_fst_map_to_list. }
  rewrite (mergeInOrder_lookup visited s name Hnd), merge_loop_lookup.
  assert (list_to_map visited = e) as ->; [|reflexivity].
  rewrite (list_to_map_proper visited (map_to_list e) Hnd Hp).
  apply list_to_map_to_list.
Qed.

(** [new] ends in [log.Fatalln] exactly when the config file is there but
    cannot be read or parsed, or, the file being fine or absent, the
    configuration in the environment cannot be parsed; the message is that
    of the first failure. *)
Theorem new_fatal :
  forall i msg,
    new i = Go.Fatal msg
    <-> configFile i = ReadFailed msg
        \/ configFile i = FileParseFailed msg
        \/ ((configFile i = NoFile \/ exists c, configFile i = FileLoaded c)
            /\ BackmanConfig i = EnvParseFailed msg).
Proof.
  intros i msg. unfold new, loadFile, loadEnv.
  destruct (configFile i) as [|err|err|c]; cbn.
  - destruct (BackmanConfig i) as [|err|e]; cbn.
    + split; [discriminate|]. intros [H|[H|[_ H]]]; discriminate.
    + split; [intros [= ->]; right; right; auto|].
      intros [H|[H|[_ [= ->]]]]; try discriminate; reflexivity.
    + destruct (overlay initialConfig e) as [m|m|m] eqn:E.
      * split; [discriminate|]. intros [H|[H|[_ H]]]; discriminate.
      * unfold overlay in E. destruct (mergeServices _ _) eqn:E'; try discriminate.
        unfold mergeServices in E'.
        destruct (Services e); [case_bool_decide|]; discriminate.
      * split; [discriminate|]. intros [H|[H|[_ H]]]; discriminate.
  - split; [intros [= ->]; auto|]. intros [[= ->]|[H|[[H|[c H]] _]]];
      try discriminate; reflexivity.
  - split; [intros [= ->]; auto|]. intros [H|[[= ->]|[[H|[c H]] _]]];
      try discriminate; reflexivity.
  - destruct (BackmanConfig i) as [|err|e]; cbn.
    + split; [discriminate|]. intros [H|[H|[_ H]]]; discriminate.
    + split; [intros [= ->]; right; right; eauto|].
      intros [H|[H|[_ [= ->]]]]; try discriminate; reflexivity.
    + destruct (overlay c e) as [m|m|m] eqn:E.
      * split; [discriminate|]. intros [H|[H|[_ H]]]; discriminate.
      * unfold overlay in E. destruct (mergeServices _ _) eqn:E'; try discriminate.
        unfold mergeServices in E'.
        destruct (Services e); [case_bool_decide|]; try discriminate.
        destruct (Services (mergeSettings c e)); discriminate.
      * split; [discriminate|]. intros [H|[H|[_ H]]]; discriminate.
Qed.

Lemma merge_order_irrelevant_witness :
  Package.mergeInOrder (rev (map_to_list Sample.env_services)) {[ "orders" := Sample.orders ]}
  = map_fold mergeStep {[ "orders" := Sample.orders ]} Sample.env_services.
Proof.
  apply (merge_order_irrelevant {[ "orders" := Sample.orders ]} Sample.env_services).
  symmetry. apply Permutation_rev.
Defined.

(** The port variable is a fallback only: the resolved port is the port of
    the environment configuration when that is positive, else the port of
    the file when that is not zero, and only then the number in the port
    variable. *)
Theorem port_variable_is_fallback :
  forall i f c,
    loadFile (configFile i) = Go.Ok f ->
    new i = Go.Ok c ->
    let overlaid :=
      match BackmanConfig i with
      | EnvLoaded e => if 0 <? Port e then Port e else Port f
      | _ => Port f
      end in
    Port c = (if overlaid =? 0 then Go.Atoi_value (BackmanPort i) else overlaid)
    /\ (overlaid <> 0 ->
        forall port, exists c',
          new {| configFile := configFile i; BackmanConfig := BackmanConfig i;
                 BackmanPort := port; BackmanUsername := BackmanUsername i;
                 BackmanPassword := BackmanPassword i;
                 BackmanEncryptionKey := BackmanEncryptionKey i;
                 BackmanTeamsWebhook := BackmanTeamsWebhook i;
                 BackmanTeamsEvents := BackmanTeamsEvents i |} = Go.Ok c'
          /\ Port c' = Port c).
Proof.
  intros i f c Hf Hc overlaid.
  destruct (new_finish i c Hc) as (f' & m & Hf' & Hm & ->).
  rewrite Hf in Hf'. injection Hf' as <-.
  assert (Hp : Port m = overlaid).
  { subst overlaid. unfold loadEnv in Hm.
    destruct (BackmanConfig i) as [|err|e]; try discriminate.
    - by injection Hm as <-.
    - destruct (overlay_Ok f e m Hm) as (s & _ & ->). reflexivity. }
  split.
  - unfold finish; cbn. by rewrite Hp.
  - intros Hne port. eexists. split.
    + unfold new. cbn. rewrite Hf, Hm. reflexivity.
    + unfold finish; cbn. rewrite Hp.
      destruct (overlaid =? 0) eqn:E; [|reflexivity].
      apply Z.eqb_eq in E. contradiction.
Qed.

Lemma port_variable_is_fallback_witness :
  Port Sample.resolved = 8080.
Proof.
  exact (proj1 (port_variable_is_fallback Sample.inputs Sample.file_config
                  Sample.resolved eq_refl ltac:(vm_compute; reflexivity))).
Defined.

(** [Get] reads the configuration once: when a call has succeeded, every
    later call returns that same configuration, whatever file name has been
    set and whatever the file and the environment have become. *)
Theorem Get_once :
  forall os v c v',
    Package.Get os v = Go.Ok (c, v') ->
    forall os' file,
      Package.Get os' v' = Go.Ok (c, v')
      /\ Package.Get os' (Package.SetConfigFile file v')
         = Go.Ok (c, Package.SetConfigFile file v')
      /\ Package.Init os' v' = Go.Ok v'.
Proof.
  intros os v c v' H os' file. unfold Package.Get in H.
  destruct (Package.once v) eqn:Ho.
  - injection H as <- <-. unfold Package.Init, Package.Get. cbn. rewrite Ho. auto.
  - destruct (new _) as [c0| |]; try discriminate.
    injection H as <- <-. unfold Package.Init, Package.Get. cbn. auto.
Qed.

Lemma Get_once_witness :
  Package.Get Sample.os_later
    (Package.SetConfigFile "other.json"
       {| Package.config := Sample.resolved; Package.once := true;
          Package.configFile := "config.json" |})
  = Go.Ok (Sample.resolved,
           Package.SetConfigFile "other.json"
             {| Package.config := Sample.resolved; Package.once := true;
                Package.configFile := "config.json" |}).
Proof.
  exact (proj1 (proj2 (Get_once Sample.os Package.initial Sample.resolved
                         {| Package.config := Sample.resolved; Package.once := true;
                            Package.configFile := "config.json" |}
                         ltac:(vm_compute; reflexivity)
                         Sample.os_later "other.json"))).
Defined.

(** Before the first [Get], [SetConfigFile] decides which file is read:
    the first [Get] resolves the configuration from the file of that name
    and the environment. *)
Theorem SetConfigFile_before_Get :
  forall os file c v',
    Package.Get os (Package.SetConfigFile file Package.initial) = Go.Ok (c, v') ->
    new (Package.inputs os file) = Go.Ok c
    /\ Package.config v' = c /\ Package.once v' = true
    /\ Package.configFile v' = file.
Proof.
  intros os file c v'. unfold Package.Get. cbn.
  destruct (new (Package.inputs os file)) as [c0| |]; try discriminate.
  intros [= <- <-]. auto.
Qed.

End ConfigMore.


(** ** The reading handlers *)

Section ReadingHandlers.

Import Effects.

Lemma fold_append {A B} (f : A -> B) (l : list A) : forall acc : list B,
  fold_left (fun s x => ApiRead.append s (f x)) l (Some acc)
  = Some (acc ++ (f <$> l))%list.
Proof.
  induction l as [|x l IH]; intros acc; cbn.
  - by rewrite app_nil_r.
  - unfold ApiRead.append at 2. cbn [ApiRead.elems default]. rewrite IH.
    by rewrite <- app_assoc.
Qed.

(** [getAPIBackup] keeps the service and copies every file, in order and
    field by field: the n-th file of the result has the key, the file path,
    the file name, the size and the modification time of the n-th file of
    the backup.  The list of files has the same length and is never nil,
    also for a backup without files. *)
Theorem getAPIBackup_files :
  forall b : Service.Backup,
    ApiRead.Service (ApiRead.getAPIBackup b) = Service.Backup_Service b
    /\ exists files,
         ApiRead.Files (ApiRead.getAPIBackup b) = Some files
         /\ length files = length (Service.Backup_Files b)
         /\ (forall n f, Service.Backup_Files b !! n = Some f ->
               exists g, files !! n = Some g
                         /\ ApiRead.Key g = Service.Key f
                         /\ ApiRead.Filepath g = Service.Filepath f
                         /\ ApiRead.Filename g = Service.Filename f
                         /\ ApiRead.Size g = Service.Size f
                         /\ ApiRead.LastModified g = Service.LastModified f)
         /\ (Service.Backup_Files b = [] -> files = []).
Proof.
  intros b. unfold ApiRead.getAPIBackup. cbn [ApiRead.Files ApiRead.Service].
  rewrite (fold_append ApiRead.getAPIFile (Service.Backup_Files b) []). cbn [app].
  split; [reflexivity|].
  exists (ApiRead.getAPIFile <$> Service.Backup_Files b).
  split; [reflexivity|]. split; [by rewrite length_fmap|]. split.
  - intros n f H. exists (ApiRead.getAPIFile f).
    rewrite list_lookup_fmap, H. repeat split.
  - intros ->. reflexivity.
Qed.

Variable service_GetBackups :
  string -> string -> M (list Service.Backup * option error).
Variable service_GetBackup :
  string -> string -> string -> M (option Service.Backup * option error).
Variable service_ReadBackup :
  string -> string -> string -> M (string * option error).

Let ListBackups := ApiRead.ListBackups service_GetBackups.
Let GetBackups := ApiRead.GetBackups service_GetBackups.
Let GetBackup := ApiRead.GetBackup service_GetBackup.
Let DownloadBackup := ApiRead.DownloadBackup service_ReadBackup.

Lemma ListBackups_decoded c n w :
  Go.QueryUnescape (ApiRead.Param c "service_name") = inl n ->
  ListBackups c w
  = let '(r, w') := service_GetBackups (ApiRead.QueryParam c "service_type") n w in
    match snd r with
    | Some err =>
        ({| ApiRead.status := 404; ApiRead.header := [];
            ApiRead.payload := ApiRead.JSONErrorText err |}, w')
    | None =>
        ({| ApiRead.status := 200; ApiRead.header := [];
            ApiRead.payload :=
              ApiRead.JSONBackups (Some (ApiRead.getAPIBackup <$> fst r)) |}, w')
    end.
Proof.
  intros Hn. unfold ListBackups, ApiRead.ListBackups. rewrite Hn. unfold bind.
  destruct (service_GetBackups _ n w) as [[bs err] w']. cbn [fst snd].
  destruct err as [err|]; [reflexivity|].
  by rewrite (fold_append ApiRead.getAPIBackup bs []).
Qed.

Lemma GetBackups_decoded c n w :
  Go.QueryUnescape (ApiRead.Param c "service_name") = inl n ->
  GetBackups c w
  = let '(r, w') := service_GetBackups (ApiRead.QueryParam c "service_type") n w in
    match r with
    | (_, Some err) =>
        ({| ApiRead.status := 404; ApiRead.header := [];
            ApiRead.payload := ApiRead.JSONErrorText err |}, w')
    | ([b], None) =>
        ({| ApiRead.status := 200; ApiRead.header := [];
            ApiRead.payload := ApiRead.JSONBackup (ApiRead.getAPIBackup b) |}, w')
    | (_, None) =>
        ({| ApiRead.status := 404; ApiRead.header := [];
            ApiRead.payload :=
              ApiRead.JSONErrorValue (errorString "backups not found") |}, w')
    end.
Proof.
  intros Hn. unfold GetBackups, ApiRead.GetBackups. rewrite Hn. unfold bind.
  destruct (service_GetBackups _ n w) as [[bs err] w']. cbn [fst snd].
  destruct err as [err|]; [by destruct bs as [|b [|b' bs]]|].
  by destruct bs as [|b [|b' bs]].
Qed.

End ReadingHandlers.

(** [ListBackups] answers a failure of the service with 404 and its text;
    otherwise it answers 200 with one projected record per backup that the
    service returned, in the same order: for a service without backups an
    empty list, not nil and not an error. *)
Theorem ListBackups_projects_all :
  forall svc (c : ApiRead.Context) n w bs err w',
    Go.QueryUnescape (ApiRead.Param c "service_name") = inl n ->
    svc (ApiRead.QueryParam c "service_type") n w = ((bs, err), w') ->
    ApiRead.ListBackups svc c w
    = match err with
      | Some e =>
          ({| ApiRead.status := 404; ApiRead.header := [];
              ApiRead.payload := ApiRead.JSONErrorText e |}, w')
      | None =>
          ({| ApiRead.status := 200; ApiRead.header := [];
              ApiRead.payload :=
                ApiRead.JSONBackups (Some (ApiRead.getAPIBackup <$> bs)) |}, w')
      end.
Proof.
  intros svc c n w bs err w' Hn Hs.
  rewrite (ListBackups_decoded svc c n w Hn), Hs. reflexivity.
Qed.

(** [GetBackups] answers 200 exactly when the service reports no error and
    returns exactly one backup, and then carries the projection of that
    backup; every other case is answered 404. *)
Theorem GetBackups_exactly_one :
  forall svc (c : ApiRead.Context) n w bs err w',
    Go.QueryUnescape (ApiRead.Param c "service_name") = inl n ->
    svc (ApiRead.QueryParam c "service_type") n w = ((bs, err), w') ->
    let reply := fst (ApiRead.GetBackups svc c w) in
    (ApiRead.status reply = 200 <-> err = None /\ length bs = 1%nat)
    /\ (ApiRead.status reply = 200 \/ ApiRead.status reply = 404)
    /\ (forall b, err = None -> bs = [b] ->
          ApiRead.payload reply = ApiRead.JSONBackup (ApiRead.getAPIBackup b))
    /\ snd (ApiRead.GetBackups svc c w) = w'.
Proof.
  intros svc c n w bs err w' Hn Hs reply. subst reply.
  rewrite (GetBackups_decoded svc c n w Hn), Hs.
  destruct err as [e|], bs as [|b [|b' bs]]; cbn;
    (split; [split; [try discriminate; auto | intros [? ?]; try discriminate; auto]|]);
    (split; [auto|]);
    (split; [intros ? ? ?; try discriminate; congruence|reflexivity]).
Qed.

(** [GetBackup] answers 200 exactly when the service reports no error and
    hands back a backup whose first file has a non-empty name; the reply
    then carries the projection of that backup.  A nil backup next to a nil
    error makes the handler panic; everything else is answered 404. *)
Theorem GetBackup_needs_a_named_file :
  forall svc (c : ApiRead.Context) n f w b err w',
    Go.QueryUnescape (ApiRead.Param c "service_name") = inl n ->
    Go.QueryUnescape (ApiRead.Param c "file") = inl f ->
    svc (ApiRead.Param c "service_type") n f w = ((b, err), w') ->
    let out := fst (ApiRead.GetBackup svc c w) in
    let named :=
      exists bk first rest,
        b = Some bk /\ Service.Backup_Files bk = first :: rest
        /\ Service.Filename first <> "" in
    ((exists r, out = Go.Ok r /\ ApiRead.status r = 200) <-> err = None /\ named)
    /\ (forall r, out = Go.Ok r -> ApiRead.status r = 200 ->
          exists bk, b = Some bk
                     /\ ApiRead.payload r = ApiRead.JSONBackup (ApiRead.getAPIBackup bk))
    /\ (forall r, out = Go.Ok r -> ApiRead.status r = 200 \/ ApiRead.status r = 404)
    /\ ((exists m, out = Go.Panic m) <-> err = None /\ b = None).
Proof.
  intros svc c n f w b err w' Hn Hf Hs out named. subst out named.
  unfold ApiRead.GetBackup. rewrite Hn, Hf. unfold Effects.bind. rewrite Hs.
  cbn [fst snd].
  destruct err as [e|].
  { cbn. split; [|split; [|split]].
    - split; [intros (r & Hr & H200); injection Hr as <-; discriminate
             | intros [Hnone _]; discriminate].
    - intros r Hr H200. injection Hr as <-. discriminate.
    - intros r Hr. injection Hr as <-. auto.
    - split; [intros [m Hm]; discriminate | intros [Hnone _]; discriminate]. }
  destruct b as [bk|].
  2:{ cbn. split; [|split; [|split]].
      - split; [intros (r & Hr & _); discriminate
               | intros (_ & bk & first & rest & Hb & _); discriminate].
      - intros r Hr. discriminate.
      - intros r Hr. discriminate.
      - split; eauto. }
  destruct (Service.Backup_Files bk) as [|first rest] eqn:Efiles.
  { cbn. split; [|split; [|split]].
    - split; [intros (r & Hr & H200); injection Hr as <-; discriminate|].
      intros (_ & bk' & first & rest & Hb & Hfiles & _).
      injection Hb as <-. congruence.
    - intros r Hr H200. injection Hr as <-. discriminate.
    - intros r Hr. injection Hr as <-. auto.
    - split; [intros [m Hm]; discriminate | intros [_ Hb]; discriminate]. }
  destruct (Service.Filename first) as [|a s] eqn:Ename.
  { cbn. split; [|split; [|split]].
    - split; [intros (r & Hr & H200); injection Hr as <-; discriminate|].
      intros (_ & bk' & first' & rest' & Hb & Hfiles & Hne).
      injection Hb as <-. rewrite Efiles in Hfiles. injection Hfiles as <- <-.
      congruence.
    - intros r Hr H200. injection Hr as <-. discriminate.
    - intros r Hr. injection Hr as <-. auto.
    - split; [intros [m Hm]; discriminate | intros [_ Hb]; discriminate]. }
  assert (Hlen : (Go.len (String a s) =? 0) = false) by reflexivity.
  rewrite Hlen. cbn. split; [|split; [|split]].
  - split; [|eauto]. intros _. split; [reflexivity|].
    exists bk, first, rest. rewrite Ename. repeat split; auto; discriminate.
  - intros r Hr _. injection Hr as <-. eauto.
  - intros r Hr. injection Hr as <-. auto.
  - split; [intros [m Hm]; discriminate | intros [_ Hb]; discriminate].
Qed.

(** A download that the service can serve is answered 200 as a gzip
    attachment that streams what the service read, under the decoded file
    name; a failure of the service, a missing file included, is answered
    500 with its text. *)
Theorem DownloadBackup_attachment :
  forall svc (c : ApiRead.Context) n f w content err w',
    Go.QueryUnescape (ApiRead.Param c "service_name") = inl n ->
    Go.QueryUnescape (ApiRead.Param c "file") = inl f ->
    svc (ApiRead.Param c "service_type") n f w = ((content, err), w') ->
    ApiRead.DownloadBackup svc c w
    = match err with
      | Some e =>
          ({| ApiRead.status := 500; ApiRead.header := [];
              ApiRead.payload := ApiRead.JSONErrorText e |}, w')
      | None =>
          ({| ApiRead.status := 200;
              ApiRead.header :=
                [("Content-Disposition",
                  "attachment; filename=" ++ ApiRead.quote ++ f ++ ApiRead.quote)];
              ApiRead.payload := ApiRead.Stream "application/gzip" content |}, w')
      end.
Proof.
  intros svc c n f w content err w' Hn Hf Hs.
  unfold ApiRead.DownloadBackup. rewrite Hn, Hf. unfold Effects.bind.
  rewrite Hs. cbn [fst snd]. by destruct err.
Qed.

(** A path parameter that does not decode is answered 400 before package
    [service] is called: whatever the service functions are, the four
    reading handlers answer a malformed service name alike and only add a
    line to the log, and so do [GetBackup] and [DownloadBackup] for a
    malformed file name. *)
Theorem reading_handlers_validate_first :
  forall gs g rb (c : ApiRead.Context) w,
    let bad what e :=
      ({| ApiRead.status := 400; ApiRead.header := [];
          ApiRead.payload := ApiRead.JSONInvalid what (Effects.EscapeError e) |},
       snd (Effects.log_line (Effects.Errorf "%v" [] (Effects.EscapeError e)) w)) in
    (forall e,
       Go.QueryUnescape (ApiRead.Param c "service_name") = inr e ->
       ApiRead.ListBackups gs c w = bad "service name" e
       /\ ApiRead.GetBackups gs c w = bad "service name" e
       /\ ApiRead.GetBackup g c w
          = (Go.Ok (fst (bad "service name" e)), snd (bad "service name" e))
       /\ ApiRead.DownloadBackup rb c w = bad "service name" e)
    /\ (forall n e,
          Go.QueryUnescape (ApiRead.Param c "service_name") = inl n ->
          Go.QueryUnescape (ApiRead.Param c "file") = inr e ->
          ApiRead.GetBackup g c w
          = (Go.Ok (fst (bad "filename" e)), snd (bad "filename" e))
          /\ ApiRead.DownloadBackup rb c w = bad "filename" e).
Proof.
  intros gs g rb c w bad. subst bad. split.
  - intros e He.
    unfold ApiRead.ListBackups, ApiRead.GetBackups, ApiRead.GetBackup,
      ApiRead.DownloadBackup.
    rewrite He. repeat split.
  - intros n e Hn He. unfold ApiRead.GetBackup, ApiRead.DownloadBackup.
    rewrite Hn, He. repeat split.
Qed.

(** [ListBackups] and [GetBackups] take the service type from the query
    string, not from the path: two requests with the same query parameter
    service_type and the same path parameter service_name are answered
    alike, whatever else they carry. *)
Theorem listing_reads_type_from_query :
  forall gs (c c' : ApiRead.Context),
    ApiRead.QueryParam c "service_type" = ApiRead.QueryParam c' "service_type" ->
    ApiRead.Param c "service_name" = ApiRead.Param c' "service_name" ->
    ApiRead.ListBackups gs c = ApiRead.ListBackups gs c'
    /\ ApiRead.GetBackups gs c = ApiRead.GetBackups gs c'.
Proof.
  intros gs c c' Hq Hp. unfold ApiRead.ListBackups, ApiRead.GetBackups.
  rewrite Hq, Hp. split; reflexivity.
Qed.

(** The sample catalog: the one backup of "orders" is listed with its two
    files. *)
Lemma ListBackups_projects_all_witness :
  fst (ApiRead.ListBackups Sample.GetBackups Sample.get Sample.world)
  = {| ApiRead.status := 200; ApiRead.header := [];
       ApiRead.payload :=
         ApiRead.JSONBackups (Some [ApiRead.getAPIBackup Sample.orders_backup]) |}.
Proof.
  exact (f_equal fst
           (ListBackups_projects_all Sample.GetBackups Sample.get "orders" Sample.world
              [Sample.orders_backup] None Sample.world eq_refl eq_refl)).
Defined.

Lemma GetBackups_exactly_one_witness :
  ApiRead.status (fst (ApiRead.GetBackups Sample.GetBackups Sample.get Sample.world))
  = 200.
Proof.
  apply (proj1 (GetBackups_exactly_one Sample.GetBackups Sample.get "orders"
                  Sample.world [Sample.orders_backup] None Sample.world
                  eq_refl eq_refl)).
  split; reflexivity.
Defined.

Lemma GetBackup_needs_a_named_file_witness :
  exists r,
    fst (ApiRead.GetBackup Sample.GetBackup Sample.get Sample.world) = Go.Ok r
    /\ ApiRead.status r = 200.
Proof.
  apply (proj1 (GetBackup_needs_a_named_file Sample.GetBackup Sample.get "orders"
                  "orders 1.gz" Sample.world
                  (Some {| Service.Backup_Service := Sample.orders;
                           Service.Backup_Files := [Sample.dump "orders 1.gz"] |})
                  None Sample.world eq_refl eq_refl eq_refl)).
  split; [reflexivity|].
  eexists _, _, _. repeat split. discriminate.
Defined.

Lemma DownloadBackup_attachment_witness :
  ApiRead.header (fst (ApiRead.DownloadBackup Sample.ReadBackup Sample.get Sample.world))
  = [("Content-Disposition",
      "attachment; filename=" ++ ApiRead.quote ++ "orders 1.gz" ++ ApiRead.quote)].
Proof.
  exact (f_equal (fun r => ApiRead.header (fst r))
           (DownloadBackup_attachment Sample.ReadBackup Sample.get "orders"
              "orders 1.gz" Sample.world "gzip-bytes" None Sample.world
              eq_refl eq_refl eq_refl)).
Defined.

Lemma listing_reads_type_from_query_witness :
  ApiRead.GetBackups Sample.GetBackups Sample.get
  = ApiRead.GetBackups Sample.GetBackups Sample.get_other_path.
Proof.
  exact (proj2 (listing_reads_type_from_query Sample.GetBackups Sample.get
                  Sample.get_other_path eq_refl eq_refl)).
Defined.

(** Each handler has three status codes and no other: the listing and
    reading handlers answer 200, 400 or 404, the download 200, 400 or 500,
    the POST 202, 400 or 404, the DELETE 204, 400 or 500.  In particular a
    download or a delete is never answered 404. *)
Theorem handler_statuses :
  forall gs g rb valid find del (c : ApiRead.Context) (c' : Api.Request) w,
    let one_of (s a b d : Z) := s = a \/ s = b \/ s = d in
    one_of (ApiRead.status (fst (ApiRead.ListBackups gs c w))) 200 400 404
    /\ one_of (ApiRead.status (fst (ApiRead.GetBackups gs c w))) 200 400 404
    /\ (forall r, fst (ApiRead.GetBackup g c w) = Go.Ok r ->
          one_of (ApiRead.status r) 200 400 404)
    /\ one_of (ApiRead.status (fst (ApiRead.DownloadBackup rb c w))) 200 400 500
    /\ one_of (Api.status (fst (Api.CreateBackup valid find c' w))) 202 400 404
    /\ one_of (Api.status (fst (Api.DeleteBackup del c' w))) 204 400 500.
Proof.
  intros gs g rb valid find del c c' w one_of. subst one_of. cbv beta.
  repeat apply conj.
  - unfold ApiRead.ListBackups, Effects.bind.
    destruct (Go.QueryUnescape _); [|cbn; auto].
    destruct (gs _ _ w) as [[bs [e|]] w']; cbn; auto.
  - unfold ApiRead.GetBackups, Effects.bind.
    destruct (Go.QueryUnescape _); [|cbn; auto].
    destruct (gs _ _ w) as [[[|b [|b' bs]] [e|]] w']; cbn; auto.
  - intros r. unfold ApiRead.GetBackup, Effects.bind.
    destruct (Go.QueryUnescape (ApiRead.Param c "service_name"));
      [|cbn; intros [= <-]; auto].
    destruct (Go.QueryUnescape (ApiRead.Param c "file"));
      [|cbn; intros [= <-]; auto].
    destruct (g _ _ _ w) as [[[bk|] [e|]] w']; cbn [fst snd];
      try (cbn; intros [= <-]; auto; fail); try (cbn; discriminate).
    destruct (Service.Backup_Files bk) as [|first rest];
      [cbn; intros [= <-]; auto|].
    destruct (Go.len (Service.Filename first) =? 0); cbn; intros [= <-]; auto.
  - unfold ApiRead.DownloadBackup, Effects.bind.
    destruct (Go.QueryUnescape (ApiRead.Param c "service_name")); [|cbn; auto].
    destruct (Go.QueryUnescape (ApiRead.Param c "file")); [|cbn; auto].
    destruct (rb _ _ _ w) as [[content [e|]] w']; cbn; auto.
  - unfold Api.CreateBackup.
    destruct (Go.QueryUnescape _); [|cbn; auto].
    destruct (valid _); cbn [negb]; [|cbn; auto].
    destruct (Go.len _ =? 0); cbn; auto.
  - unfold Api.DeleteBackup, Effects.bind.
    destruct (Go.QueryUnescape (Api.service_name c')); [|cbn; auto].
    destruct (Go.QueryUnescape (Api.file c')); [|cbn; auto].
    destruct (del _ _ _ w) as [[e|] w']; cbn; auto.
Qed.

(** The POST handler starts a backup task exactly when it answers 202,
    and then only one; whatever it answers, it leaves the tracker and the
    object storage alone. *)
Theorem CreateBackup_task_iff_accepted :
  forall valid find (c : Api.Request) w,
    let r := Api.CreateBackup valid find c w in
    (Api.status (fst r) = 202 <->
       exists t, Effects.tasks (snd r) = (Effects.tasks w ++ [t])%list)
    /\ (Api.status (fst r) <> 202 -> Effects.tasks (snd r) = Effects.tasks w)
    /\ Effects.tracker (snd r) = Effects.tracker w
    /\ Effects.transitions (snd r) = Effects.transitions w
    /\ Effects.catalog (snd r) = Effects.catalog w
    /\ Effects.s3_up (snd r) = Effects.s3_up w.
Proof.
  intros valid find c w r. subst r. unfold Api.CreateBackup.
  assert (Hno : forall (l : list Effects.Task) t, l <> (l ++ [t])%list).
  { intros l t H. apply (f_equal length) in H. rewrite length_app in H. cbn in H. lia. }
  destruct (Go.QueryUnescape _) as [n|e].
  - destruct (valid _); cbn [negb].
    + destruct (Go.len _ =? 0); cbn.
      * repeat split; try discriminate; try congruence.
        intros [t H]. by apply Hno in H.
      * repeat split; eauto. intros H. by destruct H.
    + cbn. repeat split; try discriminate; try congruence.
      intros [t H]. by apply Hno in H.
  - cbn. repeat split; try discriminate; try congruence.
    intros [t H]. by apply Hno in H.
Qed.


(** ** The services of the UI *)

Section UiGroups.

Let type_of (s : Config.Service) : string := Config.Binding_Type (Config.Binding s).

Lemma step_lookup_same acc s :
  UiNew.step acc s !! type_of s = Some (default [] (acc !! type_of s) ++ [s])%list.
Proof.
  unfold UiNew.step. fold (type_of s).
  destruct (acc !! type_of s) as [g|] eqn:E.
  - by rewrite lookup_insert_eq, E.
  - by rewrite !lookup_insert_eq.
Qed.

Lemma step_lookup_other acc s t :
  type_of s <> t -> UiNew.step acc s !! t = acc !! t.
Proof.
  intros Hne. unfold UiNew.step. fold (type_of s).
  destruct (acc !! type_of s) as [g|];
    by rewrite ?lookup_insert_ne by exact Hne.
Qed.

Lemma groups_lookup visited t : forall acc,
  fold_left UiNew.step visited acc !! t
  = match acc !! t, UiNew.of_type t visited with
    | None, [] => None
    | g, l => Some (default [] g ++ l)%list
    end.
Proof.
  induction visited as [|s visited IH]; intros acc.
  - cbn. destruct (acc !! t); [by rewrite app_nil_r|reflexivity].
  - cbn [fold_left]. rewrite IH. unfold UiNew.of_type. cbn [List.filter].
    fold (type_of s). fold (UiNew.of_type t visited).
    destruct (String.eqb (type_of s) t) eqn:E.
    + apply String.eqb_eq in E. subst t. rewrite step_lookup_same.
      cbn. rewrite <- app_assoc. cbn.
      destruct (acc !! type_of s); reflexivity.
    + apply String.eqb_neq in E. rewrite (step_lookup_other acc s t E). reflexivity.
Qed.

Lemma of_type_Permutation t (l l' : list Config.Service) :
  l ≡ₚ l' -> UiNew.of_type t l ≡ₚ UiNew.of_type t l'.
Proof.
  intros H. unfold UiNew.of_type.
  induction H as [|x l l' H IH|x y l|l l' l'' H1 IH1 H2 IH2]; cbn.
  - reflexivity.
  - destruct (String.eqb _ t); [by constructor|exact IH].
  - destruct (String.eqb (Config.Binding_Type (Config.Binding x)) t),
      (String.eqb (Config.Binding_Type (Config.Binding y)) t);
      try reflexivity. apply perm_swap.
  - by etransitivity.
Qed.

(** [New] files every service under its binding type and nowhere else:
    the group of a type holds the services of that type in the order in
    which they were visited, and a type without services has no group.
    Another visiting order gives the same types, each with the same
    services up to their order. *)
Theorem New_groups_by_binding_type :
  forall (visited : list Config.Service) (t : string),
    Go.map_index [] (Ui.Services (UiNew.New visited)) t = UiNew.of_type t visited
    /\ (is_Some (default ∅ (Ui.Services (UiNew.New visited)) !! t)
        <-> exists s, In s visited /\ Config.Binding_Type (Config.Binding s) = t)
    /\ forall visited',
         visited ≡ₚ visited' ->
         Go.map_index [] (Ui.Services (UiNew.New visited)) t
         ≡ₚ Go.map_index [] (Ui.Services (UiNew.New visited')) t.
Proof.
  intros visited t.
  assert (Hidx : forall v, Go.map_index [] (Ui.Services (UiNew.New v)) t
                           = UiNew.of_type t v).
  { intros v. cbn. rewrite groups_lookup, lookup_empty.
    by destruct (UiNew.of_type t v). }
  split; [apply Hidx|]. split.
  - cbn. rewrite groups_lookup, lookup_empty. unfold UiNew.of_type.
    destruct (List.filter _ visited) as [|s l] eqn:E.
    + split; [intros [x Hx]; discriminate|].
      intros (s & Hin & Ht).
      assert (Hs : In s (List.filter
                 (fun s => String.eqb (Config.Binding_Type (Config.Binding s)) t)
                 visited)).
      { apply filter_In. split; [exact Hin|]. by apply String.eqb_eq. }
      rewrite E in Hs. destruct Hs.
    + split; [|eauto]. intros _.
      assert (Hs : In s (List.filter
                 (fun s => String.eqb (Config.Binding_Type (Config.Binding s)) t)
                 visited)) by (rewrite E; by left).
      apply filter_In in Hs as [Hin Ht]. apply String.eqb_eq in Ht. eauto.
  - intros visited' Hp. rewrite !Hidx. by apply of_type_Permutation.
Qed.

End UiGroups.

(** [ErrorHandler] panics in two cases and renders the template
    "error.html" in every other: on an HTTP error whose message is not a
    string the type assertion panics before anything is logged; on an HTTP
    error whose code is outside 100..999 the response header cannot be
    written and [c.Render] panics after the error was logged.  When a page
    is rendered, the status of the response is the code shown on the page
    and lies within 100..999: the code and message of the HTTP error, 500
    and "Error" for any other error; and the error is logged once. *)
Theorem ErrorHandler_status_matches_page :
  forall (h : Ui.Handler) (err : Effects.error) (now : Z) (w : Effects.World),
    let out := Ui.ErrorHandler h err now w in
    let logged := (Effects.log w ++ [Effects.Errorf "%v" [] err])%list in
    ((exists m, fst out = Go.Panic m)
     <-> (exists code, err = Effects.HTTPError code Effects.MessageOther)
         \/ exists code s, err = Effects.HTTPError code (Effects.MessageString s)
                           /\ ~ (100 <= code <= 999))
    /\ ((exists code, err = Effects.HTTPError code Effects.MessageOther) ->
          snd out = w)
    /\ ((forall code, err <> Effects.HTTPError code Effects.MessageOther) ->
          Effects.log (snd out) = logged)
    /\ Effects.tracker (snd out) = Effects.tracker w
    /\ Effects.tasks (snd out) = Effects.tasks w
    /\ forall r, fst out = Go.Ok r ->
         Ui.render_template r = "error.html"
         /\ 100 <= Ui.render_code r <= 999
         /\ Ui.Code (Ui.Error (Ui.render_page r)) = Ui.render_code r
         /\ Ui.Time (Ui.Error (Ui.render_page r)) = now
         /\ Ui.Title (Ui.render_page r) = "Error"
         /\ (forall code s, err = Effects.HTTPError code (Effects.MessageString s) ->
               Ui.render_code r = code
               /\ Ui.Message (Ui.Error (Ui.render_page r)) = s)
         /\ ((forall code m, err <> Effects.HTTPError code m) ->
               Ui.render_code r = 500
               /\ Ui.Message (Ui.Error (Ui.render_page r)) = "Error").
Proof.
  intros h err now w out logged. subst out logged.
  assert (Hvalid : forall code, Ui.valid_status code = true <-> 100 <= code <= 999).
  { intros code. unfold Ui.valid_status.
    rewrite andb_true_iff, !Z.leb_le. reflexivity. }
  assert (Hother : forall err0 : Effects.error,
            (forall code m, err0 <> Effects.HTTPError code m) ->
            Ui.ErrorHandler h err0 now w
            = (Go.Ok {| Ui.render_code := 500; Ui.render_template := "error.html";
                        Ui.render_page :=
                          {| Ui.Title := "Error";
                             Ui.Page_Service := Config.zeroService;
                             Ui.Page_Services := None;
                             Ui.Page_AllServices := None;
                             Ui.Page_Backup := Ui.zeroBackup;
                             Ui.Page_Backups := [];
                             Ui.Error := {| Ui.Code := 500; Ui.Message := "Error";
                                            Ui.Time := now |} |} |},
               snd (Effects.log_line (Effects.Errorf "%v" [] err0) w))).
  { intros err0 Hne. destruct err0 as [e|m|code msg|k|m]; try reflexivity.
    exfalso. by apply (Hne code msg). }
  assert (Hcases : (exists code m, err = Effects.HTTPError code m)
                   \/ ~ (exists code m, err = Effects.HTTPError code m)).
  { destruct err as [e|m|code msg|k|m]; try (right; intros (c & m' & E); discriminate).
    left. eauto. }
  destruct Hcases as [Hhttp|Hne].
  2:{ assert (Hne' : forall code m, err <> Effects.HTTPError code m)
        by (intros code m E; apply Hne; eauto).
      rewrite (Hother err Hne'). cbn. split.
      { split; [intros [x Hx]; discriminate|].
        intros [[code E]|(code & s & E & _)]; by apply Hne' in E. }
      split; [intros [code E]; by apply Hne' in E|].
      repeat (split; [reflexivity|]).
      intros r Hr. injection Hr as <-. cbn.
      repeat split; try lia.
      all: by apply Hne' in H. }
  destruct Hhttp as (code & [s|] & ->).
  - (* an HTTP error with a string message *)
    cbn. unfold Ui.Render.
    destruct (Ui.valid_status code) eqn:Ev.
    + apply Hvalid in Ev. cbn. split.
      { split; [intros [x Hx]; discriminate|].
        intros [[c E]|(c & s' & E & Hc)]; [discriminate|].
        injection E as -> ->. contradiction. }
      split; [intros [c E]; discriminate|].
      repeat (split; [reflexivity|]).
      intros r Hr. injection Hr as <-. cbn.
      repeat split; try lia.
      * by injection H as -> ->.
      * by injection H as -> ->.
      * exfalso. eapply H. reflexivity.
      * exfalso. eapply H. reflexivity.
    + assert (Hc : ~ (100 <= code <= 999)).
      { intros E. apply Hvalid in E. congruence. }
      cbn. split.
      { split; [intros _; right; eauto | eauto]. }
      split; [intros [c E]; discriminate|].
      repeat (split; [reflexivity|]).
      intros r Hr. discriminate.
  - (* an HTTP error whose message is not a string *)
    cbn. split.
    { split; [intros _; left; eauto | eauto]. }
    split; [reflexivity|].
    split; [intros E; exfalso; eapply E; reflexivity|].
    repeat (split; [reflexivity|]).
    intros r Hr. discriminate.
Qed.
